(** * xtarfleet: GitHub login, session resolution and the /auth routes

    A shallow embedding of the server entry file (the Passport
    configuration: the GitHub verify callback, [serializeUser],
    [deserializeUser]) and of [server/routes/auth.js], together with the
    parts of Passport, passport-oauth2, express-session and knex whose
    control flow decides what those callbacks produce.

    Conventions.
    - JavaScript values are a small inductive type; objects are
      association lists in key order, arrays are Rocq lists.
    - The [users] table is a list of rows in insertion order with an
      auto-increment counter.
    - A knex query is a promise that is either resolved or rejected; the
      storage conditions of a request say which queries are rejected.
    - A Node callback ([done]) is either invoked with [(err, result)], never
      invoked, or the function that should invoke it throws.
    - The session store is a finite map from cookie to the [passport]
      object of that session. *)

From stdpp Require Import base numbers strings list gmap.

Local Open Scope string_scope.
Set Warnings "-register-all".

(** ** JavaScript values *)

Module JS.

Inductive value : Type :=
| VUndefined
| VNull
| VBool (b : bool)
| VNum (n : Z)
| VStr (s : string)
| VObj (fields : list (string * value)).

Definition object : Type := list (string * value).

(** [ToBoolean]: what [if (v)], [!v] and [a || b] test. *)
Definition truthy (v : value) : bool :=
  match v with
  | VUndefined | VNull => false
  | VBool b => b
  | VNum n => negb (n =? 0)%Z
  | VStr s => negb (String.eqb s "")
  | VObj _ => true
  end.

(** [v === 0] *)
Definition is_zero (v : value) : bool :=
  match v with VNum 0 => true | _ => false end.

(** [v === undefined] *)
Definition is_undefined (v : value) : bool :=
  match v with VUndefined => true | _ => false end.

(** [o[k]] on an object: the value of the first field named [k], or
    [undefined]. *)
Fixpoint prop (k : string) (o : object) : value :=
  match o with
  | [] => VUndefined
  | (k', v) :: o' => if String.eqb k k' then v else prop k o'
  end.

(** [o[k] = v]: overwrite in place when the key exists, append otherwise. *)
Fixpoint set_prop (k : string) (v : value) (o : object) : object :=
  match o with
  | [] => [(k, v)]
  | (k', v') :: o' =>
      if String.eqb k k' then (k, v) :: o' else (k', v') :: set_prop k v o'
  end.

(** [delete o[k]] *)
Fixpoint delete_prop (k : string) (o : object) : object :=
  match o with
  | [] => []
  | (k', v') :: o' =>
      if String.eqb k k' then delete_prop k o' else (k', v') :: delete_prop k o'
  end.

(** [v.k] on an arbitrary value. Reading a property of [undefined] or
    [null] throws a TypeError ([None]); primitives have no own fields. *)
Definition member (k : string) (v : value) : option value :=
  match v with
  | VUndefined | VNull => None
  | VObj o => Some (prop k o)
  | _ => Some VUndefined
  end.

(** [a[0]] on an array. *)
Definition first (a : list value) : value :=
  match a with
  | [] => VUndefined
  | v :: _ => v
  end.

(** Truthiness of [a.length]. *)
Definition has_length (a : list value) : bool :=
  match a with [] => false | _ :: _ => true end.

End JS.
Import JS.

(** ** Callbacks and promises *)

(** What became of a Node-style [done] callback handed to a function. *)
Inductive callback : Type :=
| Called (err : option string) (result : value)
| NeverCalled
| Threw (e : string).

Inductive promise (A : Type) : Type :=
| Resolved (a : A)
| Rejected (err : string).
Arguments Resolved {A} a.
Arguments Rejected {A} err.

(** ** The identity store: the [users] table behind knex *)

Record user_row : Type := UserRow {
  id : Z;
  github_id : string;
  avatar_url : string;
  username : string
}.

Record database : Type := Database {
  users : list user_row;
  next_id : Z
}.

Definition empty_database : database := Database [] 1.

(** Whether the store answers a query or the query is rejected. *)
Inductive db_status : Type :=
| Up
| Down (err : string).

(** The storage conditions met by the (at most three) queries of a request. *)
Record conditions : Type := Conditions {
  where_id_status : db_status;         (* deserializeUser: where({ id }) *)
  select_status : db_status;           (* verify: select('id').where({ github_id }) *)
  insert_status : db_status            (* verify: insert({ ... }) *)
}.

Definition all_up : conditions := Conditions Up Up Up.

Module Knex.

(** A full row as knex hands it to JavaScript. *)
Definition row_object (r : user_row) : value :=
  VObj [("id", VNum (id r));
        ("github_id", VStr (github_id r));
        ("avatar_url", VStr (avatar_url r));
        ("username", VStr (username r))].

(** The projection of [select('id')]. *)
Definition id_object (r : user_row) : value :=
  VObj [("id", VNum (id r))].

Definition with_github_id (gid : string) (db : database) : list user_row :=
  filter (λ r, github_id r = gid) (users db).

(** [where({ id: v })]: the session only ever holds what [serializeUser]
    stored, a number. *)
Definition id_is (v : value) (r : user_row) : bool :=
  match v with
  | VNum n => (id r =? n)%Z
  | _ => false
  end.

Definition with_id (v : value) (db : database) : list user_row :=
  filter (λ r, id_is v r = true) (users db).

(** [knex('users').select('id').where({ github_id: gid })] *)
Definition select_id_where_github_id
    (s : db_status) (db : database) (gid : string) : promise (list value) :=
  match s with
  | Up => Resolved (id_object <$> with_github_id gid db)
  | Down err => Rejected err
  end.

(** [knex('users').where({ id: v })] *)
Definition where_id
    (s : db_status) (db : database) (v : value) : promise (list value) :=
  match s with
  | Up => Resolved (row_object <$> with_id v db)
  | Down err => Rejected err
  end.

(** [knex('users').insert({ github_id, avatar_url, username })]: the row
    gets the next auto-increment id and the promise resolves to the array
    of inserted ids. A rejected insert leaves the table as it was. *)
Definition insert
    (s : db_status) (db : database) (gid avatar name : string)
  : database * promise (list value) :=
  match s with
  | Up =>
      (Database (users db ++ [UserRow (next_id db) gid avatar name])
                (next_id db + 1),
       Resolved [VNum (next_id db)])
  | Down err => (db, Rejected err)
  end.

End Knex.

(** ** The provider profile and the provider's reply *)

(** The fields of the passport-github2 profile that the verify callback
    reads: [profile.id], [profile.username], [profile._json.avatar_url]. *)
Record Profile : Type := MkProfile {
  profile_id : string;
  profile_username : string;
  profile_json_avatar_url : string
}.

(** What the browser brings to the strategy's URL. *)
Inductive provider_reply : Type :=
| NoCode                              (* no [code], no [error]: start the handshake *)
| AccessDenied                        (* ?error=access_denied *)
| TokenExchangeFailed                 (* [code] present, the token request fails *)
| ProfileFetchFailed                  (* token obtained, the profile request fails *)
| Authorized (profile : Profile).     (* token and profile obtained *)

(** ** The server entry file: Passport configuration *)

Module Server.

(** The GitHub strategy's verify callback
    [(_accessToken, _refreshToken, profile, done) => ...]. *)
Definition verify (c : conditions) (db : database) (profile : Profile)
  : database * callback :=
  match Knex.select_id_where_github_id (select_status c) db (profile_id profile) with
  | Resolved user =>
      if has_length user then
        (db, Called None (first user))
      else
        match Knex.insert (insert_status c) db
                (profile_id profile)
                (profile_json_avatar_url profile)
                (profile_username profile) with
        | (db', Resolved userId) =>
            (db', Called None (VObj [("id", first userId)]))
        | (db', Rejected _) => (db', NeverCalled)
        end
  | Rejected _ => (db, NeverCalled)
  end.

(** [passport.serializeUser((user, done) => done(null, user.id))] *)
Definition serializeUser (user : value) : callback :=
  match member "id" user with
  | Some v => Called None v
  | None => Threw "TypeError"
  end.

(** [passport.deserializeUser((userId, done) => ...)] *)
Definition deserializeUser (c : conditions) (db : database) (userId : value)
  : callback :=
  match Knex.where_id (where_id_status c) db userId with
  | Resolved user => Called None (first user)
  | Rejected _ => NeverCalled
  end.

End Server.

(** ** Find or create: the created row and the table invariant *)

(** The row a first login inserts. *)
Definition created_row (d : database) (p : Profile) : user_row :=
  UserRow (next_id d) (profile_id p) (profile_json_avatar_url p) (profile_username p).

Definition with_created_row (d : database) (p : Profile) : database :=
  Database (users d ++ [created_row d p]) (next_id d + 1).

(** Exactly one row per external id: no two rows share a [github_id]. *)
Definition one_row_per_external_id (d : database) : Prop :=
  NoDup (github_id <$> users d).

(** ** Passport: the serializer chains, the session strategy, [logIn],
       [logout] and the [authenticate] middleware *)

Module Passport.

Definition serialize_failure : string := "Failed to serialize user into session".
Definition deserialize_failure : string := "Failed to deserialize user out of session".

(** ['pass' === err] resets the error. *)
Definition unpass (err : option string) : option string :=
  match err with
  | Some e => if String.eqb e "pass" then None else Some e
  | None => None
  end.

(** [Authenticator.serializeUser(user, req, done)] over the one registered
    serializer: an error or a serialized object (truthy, or the number 0)
    finishes the chain; otherwise the chain runs out of serializers. *)
Definition serialize (user : value) : callback :=
  match Server.serializeUser user with
  | Threw e => Called (Some e) VUndefined
  | NeverCalled => NeverCalled
  | Called err obj =>
      match unpass err with
      | Some e => Called (Some e) obj
      | None =>
          if truthy obj || is_zero obj then Called None obj
          else Called (Some serialize_failure) VUndefined
      end
  end.

(** [Authenticator.deserializeUser(obj, req, done)] over the one registered
    deserializer: an error or a truthy user finishes the chain; [null] and
    [false] mean the user has since been removed; anything else falls
    through to the next deserializer, and there is none. *)
Definition deserialize (c : conditions) (db : database) (obj : value) : callback :=
  match Server.deserializeUser c db obj with
  | Threw e => Called (Some e) VUndefined
  | NeverCalled => NeverCalled
  | Called err user =>
      match unpass err with
      | Some e => Called (Some e) user
      | None =>
          if truthy user then Called None user
          else match user with
               | VNull | VBool false => Called None (VBool false)
               | _ => Called (Some deserialize_failure) VUndefined
               end
      end
  end.

(** What the client receives. [ServerError] is an error handed to [next]
    with no error-handling middleware installed; [NoResponse] is a request
    that no middleware ever answers. *)
Inductive response : Type :=
| Redirect (status : Z) (location : string)
| Json (status : Z) (body : value)
| Text (status : Z) (body : string)
| ServerError (err : string)
| NoResponse.

(** How a middleware leaves the request: it calls [next()] with the
    session's passport object and [req.user] as they now are, calls
    [next(err)], ends the response itself, or does none of these. *)
Inductive passage : Type :=
| Next (session : object) (req_user : value)
| NextError (err : string)
| Ended (session : object) (res : response)
| Stalled.

(** [passport.session()]: the session strategy. It deserializes only when
    the session holds a user ([su || su === 0]); an error goes to [next], a
    falsy user is dropped from the session, a user is attached to the
    request. *)
Definition session (c : conditions) (db : database) (sess : object) : passage :=
  let su := prop "user" sess in
  if truthy su || is_zero su then
    match deserialize c db su with
    | Called (Some e) _ => NextError e
    | Called None user =>
        if truthy user then Next sess user
        else Next (delete_prop "user" sess) VUndefined
    | NeverCalled => Stalled
    | Threw e => NextError e
    end
  else Next sess VUndefined.

(** [req.logIn(user, done)] with sessions enabled: the serialized user is
    stored under the session's [user] key. *)
Definition logIn (sess : object) (user : value) : passage :=
  match serialize user with
  | Called (Some e) _ => NextError e
  | Called None obj => Next (set_prop "user" obj sess) user
  | NeverCalled => Stalled
  | Threw e => NextError e
  end.

(** [req.logout()], called without a callback as the route does:
    [req.user = null; delete session.user]. *)
Definition logout (sess : object) : object * value :=
  (delete_prop "user" sess, VNull).

(** The action a strategy takes on a request. *)
Inductive action : Type :=
| Success (user : value)
| Fail
| RedirectTo (url : string)
| Error (err : string)
| NoAction.

(** passport-oauth2's [authenticate], specialised to the GitHub strategy
    with the verify callback above: [access_denied] is a failure, a failed
    token or profile request is an error, and the verify callback's
    [done(err, user)] decides between error, failure and success. Without
    a [code] the browser is sent to the provider. *)
Definition github (authorize_url : string)
    (c : conditions) (db : database) (reply : provider_reply)
  : database * action :=
  match reply with
  | NoCode => (db, RedirectTo authorize_url)
  | AccessDenied => (db, Fail)
  | TokenExchangeFailed => (db, Error "Failed to obtain access token")
  | ProfileFetchFailed => (db, Error "Failed to fetch user profile")
  | Authorized profile =>
      match Server.verify c db profile with
      | (db', Called (Some e) _) => (db', Error e)
      | (db', Called None user) =>
          (db', if truthy user then Success user else Fail)
      | (db', NeverCalled) => (db', NoAction)
      | (db', Threw e) => (db', Error e)
      end
  end.

(** [passport.authenticate('github', { failureRedirect })] as a middleware:
    success logs the user in and calls [next()], failure redirects to
    [failureRedirect] (or answers 401 without one), an error goes to
    [next(err)]. *)
Definition authenticate (failureRedirect : option string)
    (sess : object) (req_user : value) (a : action) : passage :=
  match a with
  | Success user => logIn sess user
  | Fail =>
      match failureRedirect with
      | Some url => Ended sess (Redirect 302 url)
      | None => Ended sess (Text 401 "Unauthorized")
      end
  | RedirectTo url => Ended sess (Redirect 302 url)
  | Error e => NextError e
  | NoAction => Stalled
  end.

End Passport.
Import Passport.

(** ** server/routes/auth.js and the application pipeline *)

Inductive route : Type :=
| GithubRoute            (* GET /auth/github *)
| GithubCallbackRoute    (* GET /auth/github/callback *)
| ProfileRoute           (* GET /auth/profile *)
| LogoutRoute.           (* GET /auth/logout *)

Record request : Type := Request {
  cookie : string;              (* the session identifier held by the client *)
  target : route;
  query : provider_reply;       (* what the provider put in the URL *)
  storage : conditions          (* how the store behaves during the request *)
}.

(** The identity store and the session store. *)
Record world : Type := World {
  db : database;
  sessions : gmap string object
}.

Definition initial_world : world := World empty_database ∅.

(** The passport object of a session; a session never seen is empty. *)
Definition session_of (w : world) (sid : string) : object :=
  default [] (sessions w !! sid).

Definition unauthorized : value := VObj [("message", VStr "Unauthorized")].

(** Where a middleware chain hands over to the route's own handler. *)
Definition and_then (sess : object) (p : passage)
    (handler : object → value → object * response) : object * response :=
  match p with
  | Next s u => handler s u
  | NextError e => (sess, ServerError e)
  | Ended s r => (s, r)
  | Stalled => (sess, NoResponse)
  end.

Section Routes.

(** [process.env.CLIENT_URL], and the provider's authorization URL that
    the strategy builds from the client id and the callback URL. *)
Variable CLIENT_URL : string.
Variable AUTHORIZE_URL : string.

Definition failure_page : string := CLIENT_URL +:+ "/auth-fail".

(** [router.get('/github', passport.authenticate('github'))] *)
Definition get_github (c : conditions) (d : database) (sess : object)
    (req_user : value) (reply : provider_reply) : database * (object * response) :=
  let '(d', a) := github AUTHORIZE_URL c d reply in
  (d', and_then sess (authenticate None sess req_user a)
         (λ s _, (s, Text 404 "Cannot GET /auth/github"))).

(** [router.get('/github/callback', passport.authenticate('github',
    { failureRedirect }), (_req, res) => res.redirect(CLIENT_URL))] *)
Definition get_github_callback (c : conditions) (d : database) (sess : object)
    (req_user : value) (reply : provider_reply) : database * (object * response) :=
  let '(d', a) := github AUTHORIZE_URL c d reply in
  (d', and_then sess (authenticate (Some failure_page) sess req_user a)
         (λ s _, (s, Redirect 302 CLIENT_URL))).

(** [router.get('/profile', (req, res) => ...)] *)
Definition get_profile (sess : object) (req_user : value) : object * response :=
  if is_undefined req_user then (sess, Json 401 unauthorized)
  else (sess, Json 200 req_user).

(** [router.get('/logout', (req, res) => ...)] *)
Definition get_logout (sess : object) (req_user : value) : object * response :=
  let '(sess', _) := logout sess in
  (sess', Redirect 302 CLIENT_URL).

(** The router behind [passport.session()]. *)
Definition dispatch (r : request) (d : database) (sess : object) (req_user : value)
  : database * (object * response) :=
  match target r with
  | GithubRoute => get_github (storage r) d sess req_user (query r)
  | GithubCallbackRoute => get_github_callback (storage r) d sess req_user (query r)
  | ProfileRoute => (d, get_profile sess req_user)
  | LogoutRoute => (d, get_logout sess req_user)
  end.

(** One request through express-session, [passport.session()] and the
    router. The session is written back when the response ends. *)
Definition handle (w : world) (r : request) : world * response :=
  let sess := session_of w (cookie r) in
  let '(d', (sess', res)) :=
    match Passport.session (storage r) (db w) sess with
    | Next s u => dispatch r (db w) s u
    | NextError e => (db w, (sess, ServerError e))
    | Ended s res => (db w, (s, res))
    | Stalled => (db w, (sess, NoResponse))
    end in
  (World d' match res with
            | NoResponse => sessions w
            | _ => <[cookie r := sess']> (sessions w)
            end,
   res).

(** Requests handled one at a time. *)
Fixpoint run (w : world) (rs : list request) : world :=
  match rs with
  | [] => w
  | r :: rs' => run (fst (handle w r)) rs'
  end.

(** A request on cookie [sid] is a successful login when the strategy, on
    one of its two routes, reports success: the provider authorized and
    the verify callback handed a user to [done]. *)
Definition successful_login (w : world) (sid : string) (r : request) : Prop :=
  cookie r = sid
  ∧ (target r = GithubRoute ∨ target r = GithubCallbackRoute)
  ∧ ∃ user, snd (github AUTHORIZE_URL (storage r) (db w) (query r)) = Success user.

(** No request of the sequence, handled from [w] on, is a successful login
    on [sid]. *)
Fixpoint no_login (sid : string) (w : world) (rs : list request) : Prop :=
  match rs with
  | [] => True
  | r :: rs' => ¬ successful_login w sid r ∧ no_login sid (fst (handle w r)) rs'
  end.

End Routes.

(** The HTTP status the client sees, if it sees a response at all. An
    error handed to [next] reaches Express's default handler. *)
Definition status_of (res : response) : option Z :=
  match res with
  | Redirect s _ | Json s _ | Text s _ => Some s
  | ServerError _ => Some 500%Z
  | NoResponse => None
  end.

(** ** Sample data *)

Definition octocat : Profile :=
  MkProfile "583231" "octocat" "https://avatars.example/u/583231?v=4".

Definition octocat_row : user_row :=
  UserRow 1 "583231" "https://avatars.example/u/583231?v=3" "octocat-2011".

Definition hubot_row : user_row :=
  UserRow 2 "480938" "https://avatars.example/u/480938" "hubot".

Definition sample_db : database := Database [octocat_row; hubot_row] 3.

Definition client_url : string := "http://localhost:3000".
Definition authorize_url : string :=
  "https://github.com/login/oauth/authorize?response_type=code&client_id=abc".

(** A world in which cookie [s1] belongs to octocat's session. *)
Definition sample_world : world :=
  World sample_db {[ "s1" := [("user", VNum 1)] ]}.

Definition octocat_login : request :=
  Request "s9" GithubCallbackRoute (Authorized octocat) all_up.

Definition octocat_profile : request :=
  Request "s1" ProfileRoute NoCode all_up.

(** A world in which cookie [s7] refers to a user that has no row. *)
Definition stale_world : world :=
  World sample_db {[ "s7" := [("user", VNum 7)] ]}.

Definition select_down : conditions :=
  Conditions Up (Down "ECONNREFUSED") Up.

Definition insert_down : conditions :=
  Conditions Up Up (Down "ECONNRESET").

Definition failed_select_login : request :=
  Request "s9" GithubCallbackRoute (Authorized octocat) select_down.

Definition failed_insert_login : request :=
  Request "s9" GithubCallbackRoute (Authorized octocat) insert_down.

Definition stale_profile : request :=
  Request "s7" ProfileRoute NoCode all_up.

Definition denied_callback : request :=
  Request "s9" GithubCallbackRoute AccessDenied all_up.

Definition failed_exchange_callback : request :=
  Request "s9" GithubCallbackRoute TokenExchangeFailed all_up.

Definition octocat_logout : request :=
  Request "s1" LogoutRoute NoCode all_up.

Definition octocat_denied : request :=
  Request "s1" GithubCallbackRoute AccessDenied all_up.

(** ** Further invariants and sample requests *)

(** Internal ids are distinct and below the auto-increment counter. *)
Definition ids_fresh (d : database) : Prop :=
  NoDup (id <$> users d) ∧ ∀ r, r ∈ users d → (id r < next_id d)%Z.

(** The session of [sid] refers to an id that no row has and that the
    counter has already passed. *)
Definition stale (w : world) (sid : string) (n : Z) : Prop :=
  prop "user" (session_of w sid) = VNum n
  ∧ Knex.with_id (VNum n) (db w) = []
  ∧ (n < next_id (db w))%Z.

(** A table whose only row has the internal id 0. *)
Definition zero_row : user_row := UserRow 0 "9" "https://avatars.example/u/9" "zero".
Definition zero_db : database := Database [zero_row] 1.

Definition lookup_down : conditions :=
  Conditions (Down "ECONNREFUSED") Up Up.

Definition hubot : Profile :=
  MkProfile "480938" "hubot-renamed" "https://avatars.example/u/480938?v=9".

Definition monalisa : Profile :=
  MkProfile "1296269" "monalisa" "https://avatars.example/u/1296269".

Definition monalisa_login : request :=
  Request "s9" GithubCallbackRoute (Authorized monalisa) all_up.

Definition monalisa_profile : request :=
  Request "s9" ProfileRoute NoCode all_up.

Definition login_start : request :=
  Request "s9" GithubRoute NoCode all_up.

Definition anonymous_logout : request :=
  Request "s9" LogoutRoute NoCode lookup_down.

Definition anonymous_profile : request :=
  Request "s9" ProfileRoute NoCode lookup_down.

(** A world in which cookie [s7] refers to a user whose row is gone while
    the counter has moved on. *)
Definition deleted_user_world : world :=
  World (Database [octocat_row; hubot_row] 9) {[ "s7" := [("user", VNum 7)] ]}.

Definition stale_logout : request :=
  Request "s7" LogoutRoute NoCode all_up.

Definition stale_login : request :=
  Request "s7" GithubCallbackRoute (Authorized octocat) all_up.

Definition octocat_profile_lookup_down : request :=
  Request "s1" ProfileRoute NoCode lookup_down.

(** * Properties *)

(** ** The verify callback: find or create *)

Section FindOrCreate.

Implicit Types (c : conditions) (d : database) (p : Profile) (r : user_row).

Lemma verify_found c d p r rest :
  select_status c = Up →
  Knex.with_github_id (profile_id p) d = r :: rest →
  Server.verify c d p = (d, Called None (Knex.id_object r)).
Proof.
  intros Hs Hm. unfold Server.verify, Knex.select_id_where_github_id.
  by rewrite Hs, Hm.
Qed.

Lemma verify_created c d p :
  select_status c = Up →
  insert_status c = Up →
  Knex.with_github_id (profile_id p) d = [] →
  Server.verify c d p
  = (with_created_row d p, Called None (Knex.id_object (created_row d p))).
Proof.
  intros Hs Hi Hm. unfold Server.verify, Knex.select_id_where_github_id, Knex.insert.
  by rewrite Hs, Hm, Hi.
Qed.

Lemma verify_select_down c d p err :
  select_status c = Down err → Server.verify c d p = (d, NeverCalled).
Proof.
  intros Hs. unfold Server.verify, Knex.select_id_where_github_id. by rewrite Hs.
Qed.

Lemma verify_insert_down c d p err :
  select_status c = Up →
  insert_status c = Down err →
  Knex.with_github_id (profile_id p) d = [] →
  Server.verify c d p = (d, NeverCalled).
Proof.
  intros Hs Hi Hm. unfold Server.verify, Knex.select_id_where_github_id, Knex.insert.
  by rewrite Hs, Hm, Hi.
Qed.

(** Whatever the storage conditions, the table is either left as it was or
    extended by the created row, and the latter only for an unseen id. *)
Lemma verify_database c d p :
  fst (Server.verify c d p) = d
  ∨ (Knex.with_github_id (profile_id p) d = []
     ∧ fst (Server.verify c d p) = with_created_row d p).
Proof.
  unfold Server.verify, Knex.select_id_where_github_id, Knex.insert.
  destruct (select_status c); [|by left].
  destruct (Knex.with_github_id (profile_id p) d) eqn:Hm; [|by left].
  destruct (insert_status c); [by right | by left].
Qed.

Lemma verify_present_unchanged c d p :
  Knex.with_github_id (profile_id p) d ≠ [] →
  fst (Server.verify c d p) = d.
Proof.
  intros Hne. destruct (verify_database c d p) as [H | [H _]]; [done | congruence].
Qed.

(** Every user object the verify callback hands to [done] is [{ id: n }]
    for the id of a row that is in the table afterwards. *)
Lemma verify_result c d p d' err user :
  Server.verify c d p = (d', Called err user) →
  err = None ∧ ∃ r, r ∈ users d' ∧ github_id r = profile_id p
                    ∧ user = Knex.id_object r.
Proof.
  unfold Server.verify, Knex.select_id_where_github_id, Knex.insert.
  destruct (select_status c); [|done].
  destruct (Knex.with_github_id (profile_id p) d) as [|r rest] eqn:Hm; simpl.
  - destruct (insert_status c); [|done].
    intros [= <- <- <-]. split; [done|].
    exists (created_row d p). split_and!; [|done..].
    simpl. apply elem_of_app. right. by apply list_elem_of_singleton.
  - intros [= <- <- <-]. split; [done|].
    exists r. assert (r ∈ Knex.with_github_id (profile_id p) d) as Hr.
    { rewrite Hm. by left. }
    apply list_elem_of_filter in Hr as [? ?]. by split_and!.
Qed.

End FindOrCreate.

(** ** Serialization *)

Lemma serializeUser_id_object r :
  Server.serializeUser (Knex.id_object r) = Called None (VNum (id r)).
Proof. reflexivity. Qed.

Lemma serialize_number (o : object) n :
  prop "id" o = VNum n → Passport.serialize (VObj o) = Called None (VNum n).
Proof.
  intros Ho. unfold Passport.serialize, Server.serializeUser. simpl. rewrite Ho. simpl.
  destruct n; reflexivity.
Qed.

Lemma logIn_id_object sess r :
  Passport.logIn sess (Knex.id_object r)
  = Next (set_prop "user" (VNum (id r)) sess) (Knex.id_object r).
Proof.
  unfold logIn, Knex.id_object. by rewrite (serialize_number _ (id r)).
Qed.

Lemma prop_set_prop k v (o : object) : prop k (set_prop k v o) = v.
Proof.
  induction o as [|[k' v'] o IH]; simpl.
  - by rewrite String.eqb_refl.
  - destruct (String.eqb k k') eqn:E; simpl; [by rewrite String.eqb_refl | by rewrite E].
Qed.

Lemma prop_delete_prop k (o : object) : prop k (delete_prop k o) = VUndefined.
Proof.
  induction o as [|[k' v'] o IH]; simpl; [done|].
  destruct (String.eqb k k') eqn:E; simpl; [done | by rewrite E].
Qed.

(** ** Deserialization and the session middleware *)

Section SessionMiddleware.

Implicit Types (c : conditions) (d : database) (sess : object) (r : user_row).

Lemma deserialize_found c d v r rest :
  where_id_status c = Up →
  Knex.with_id v d = r :: rest →
  Passport.deserialize c d v = Called None (Knex.row_object r).
Proof.
  intros Hs Hm. unfold deserialize, Server.deserializeUser, Knex.where_id.
  by rewrite Hs, Hm.
Qed.

Lemma deserialize_no_row c d v :
  where_id_status c = Up →
  Knex.with_id v d = [] →
  Passport.deserialize c d v = Called (Some deserialize_failure) VUndefined.
Proof.
  intros Hs Hm. unfold deserialize, Server.deserializeUser, Knex.where_id.
  by rewrite Hs, Hm.
Qed.

Lemma deserialize_down c d v err :
  where_id_status c = Down err → Passport.deserialize c d v = NeverCalled.
Proof.
  intros Hs. unfold deserialize, Server.deserializeUser, Knex.where_id.
  by rewrite Hs.
Qed.

(** The three outcomes of the deserializer chain, whatever the inputs. *)
Lemma deserialize_cases c d v :
  (∃ r, r ∈ users d ∧ Knex.id_is v r = true
        ∧ Passport.deserialize c d v = Called None (Knex.row_object r))
  ∨ Passport.deserialize c d v = Called (Some deserialize_failure) VUndefined
  ∨ Passport.deserialize c d v = NeverCalled.
Proof.
  destruct (where_id_status c) eqn:Hs.
  - destruct (Knex.with_id v d) as [|r rest] eqn:Hm.
    + right; left. by apply deserialize_no_row.
    + left. exists r. assert (r ∈ Knex.with_id v d) as Hr by (rewrite Hm; by left).
      apply list_elem_of_filter in Hr as [? ?]. split_and!; [done..|].
      by eapply deserialize_found.
  - right; right. by eapply deserialize_down.
Qed.

Lemma session_anonymous c d sess :
  prop "user" sess = VUndefined →
  Passport.session c d sess = Next sess VUndefined.
Proof. intros H. unfold Passport.session. by rewrite H. Qed.

Lemma session_resolved c d sess n r rest :
  prop "user" sess = VNum n →
  where_id_status c = Up →
  Knex.with_id (VNum n) d = r :: rest →
  Passport.session c d sess = Next sess (Knex.row_object r).
Proof.
  intros H Hs Hm. unfold Passport.session. rewrite H.
  rewrite (deserialize_found c d _ r rest Hs Hm).
  by destruct n.
Qed.

Lemma session_stale c d sess n :
  prop "user" sess = VNum n →
  where_id_status c = Up →
  Knex.with_id (VNum n) d = [] →
  Passport.session c d sess = NextError deserialize_failure.
Proof.
  intros H Hs Hm. unfold Passport.session. rewrite H.
  rewrite (deserialize_no_row c d _ Hs Hm).
  by destruct n.
Qed.

Lemma session_down c d sess n err :
  prop "user" sess = VNum n →
  where_id_status c = Down err →
  Passport.session c d sess = Stalled.
Proof.
  intros H Hs. unfold Passport.session. rewrite H.
  rewrite (deserialize_down c d _ err Hs).
  by destruct n.
Qed.

(** The middleware never writes to the session, never ends the response,
    and attaches either nothing or a full row of the table. *)
Lemma session_passage c d sess :
  (Passport.session c d sess = Next sess VUndefined)
  ∨ (∃ r, r ∈ users d ∧ Knex.id_is (prop "user" sess) r = true
          ∧ Passport.session c d sess = Next sess (Knex.row_object r))
  ∨ Passport.session c d sess = NextError deserialize_failure
  ∨ Passport.session c d sess = Stalled.
Proof.
  unfold Passport.session.
  destruct (truthy (prop "user" sess) || is_zero (prop "user" sess)); [|by left].
  destruct (deserialize_cases c d (prop "user" sess)) as [(r & Hr & Hid & ->) | [-> | ->]].
  - right; left. exists r. by split_and!.
  - by right; right; left.
  - by right; right; right.
Qed.

Lemma session_next c d sess s u :
  Passport.session c d sess = Next s u →
  s = sess ∧ (u = VUndefined
              ∨ ∃ r, r ∈ users d ∧ Knex.id_is (prop "user" sess) r = true
                     ∧ u = Knex.row_object r).
Proof.
  destruct (session_passage c d sess) as [-> | [(r & Hr & Hid & ->) | [-> | ->]]];
    intros [= <- <-] || intros [=]; split; [done | by left | done |].
  right. by exists r.
Qed.

End SessionMiddleware.

(** ** One request through the pipeline *)

Section Pipeline.

Variable CLIENT_URL : string.
Variable AUTHORIZE_URL : string.

Local Abbreviation app := (handle CLIENT_URL AUTHORIZE_URL).
Local Abbreviation app_run := (run CLIENT_URL AUTHORIZE_URL).
Local Abbreviation successful_login := (successful_login AUTHORIZE_URL).
Local Abbreviation no_login := (no_login CLIENT_URL AUTHORIZE_URL).

Implicit Types (w : world) (r : request) (sid : string).

Lemma session_of_insert w d sid sess sid' :
  session_of (World d (<[sid := sess]> (sessions w))) sid'
  = if decide (sid = sid') then sess else session_of w sid'.
Proof.
  unfold session_of. simpl. rewrite lookup_insert. by case_decide.
Qed.

Lemma session_of_write_back w d sid sid' :
  session_of (World d (<[sid := session_of w sid]> (sessions w))) sid'
  = session_of w sid'.
Proof. rewrite session_of_insert. case_decide; by subst. Qed.

Lemma github_database c d reply :
  fst (github AUTHORIZE_URL c d reply)
  = match reply with
    | Authorized p => fst (Server.verify c d p)
    | _ => d
    end.
Proof.
  destruct reply; try done. simpl.
  by destruct (Server.verify c d profile) as [d' [[e|] user| |e]].
Qed.

Lemma dispatch_database r d sess u :
  fst (dispatch CLIENT_URL AUTHORIZE_URL r d sess u) = d
  ∨ ∃ p, query r = Authorized p
         ∧ fst (dispatch CLIENT_URL AUTHORIZE_URL r d sess u)
           = fst (Server.verify (storage r) d p).
Proof.
  unfold dispatch, get_github, get_github_callback.
  destruct (target r); [| |by left..].
  all: pose proof (github_database (storage r) d (query r)) as Hg;
    destruct (github AUTHORIZE_URL (storage r) d (query r)) as [d' a];
    simpl in *; destruct (query r) as [| | | |p]; try (by left);
    right; by exists p.
Qed.

(** A request either leaves the table alone or is a login whose verify
    callback produced the new table. *)
Lemma handle_database w r :
  db (fst (app w r)) = db w
  ∨ ∃ p, query r = Authorized p
         ∧ db (fst (app w r)) = fst (Server.verify (storage r) (db w) p).
Proof.
  unfold handle.
  destruct (session_passage (storage r) (db w) (session_of w (cookie r)))
    as [-> | [(row & _ & _ & ->) | [-> | ->]]]; [| |by left..].
  all: match goal with |- context [dispatch _ _ ?r ?d ?s ?u] =>
         pose proof (dispatch_database r d s u) as Hd;
         destruct (dispatch CLIENT_URL AUTHORIZE_URL r d s u) as [d' [s' res]]
       end; simpl in *; done.
Qed.

(** What a request can do to the session of a cookie: nothing, remove its
    user (logout on that cookie), or set its user (a successful login on
    that cookie). *)
Lemma handle_session w r sid :
  session_of (fst (app w r)) sid = session_of w sid
  ∨ (cookie r = sid ∧ target r = LogoutRoute
     ∧ session_of (fst (app w r)) sid = delete_prop "user" (session_of w sid))
  ∨ (successful_login w sid r
     ∧ ∃ obj, session_of (fst (app w r)) sid = set_prop "user" obj (session_of w sid)).
Proof.
  unfold handle.
  destruct (session_passage (storage r) (db w) (session_of w (cookie r)))
    as [-> | [(row & _ & _ & ->) | [-> | ->]]];
    [| |left; simpl; apply session_of_write_back | by left].
  all: unfold dispatch, get_github, get_github_callback, get_profile, get_logout.
  all: destruct (target r) eqn:Ht; simpl;
    [| |left; apply session_of_write_back|]; cycle 2.
  1,4: rewrite session_of_insert; case_decide as Hsid;
    [subst sid; right; left; done | by left].
  all: destruct (github AUTHORIZE_URL (storage r) (db w) (query r)) as [d' a] eqn:Hg.
  all: destruct a as [user| |url|e|]; simpl;
    try (left; apply session_of_write_back); try (by left).
  all: unfold logIn; destruct (serialize user) as [[e|] obj| |e]; simpl;
    try (left; apply session_of_write_back); try (by left).
  all: rewrite session_of_insert; case_decide as Hsid; [|by left].
  all: subst sid; right; right; split; [|by exists obj].
  all: split_and!; [done | by (left + right) |]; rewrite Hg; by exists user.
Qed.

Lemma handle_keeps_anonymous w r sid :
  prop "user" (session_of w sid) = VUndefined →
  ¬ successful_login w sid r →
  prop "user" (session_of (fst (app w r)) sid) = VUndefined.
Proof.
  intros Hanon Hno.
  destruct (handle_session w r sid) as [-> | [(_ & _ & ->) | [Hl _]]];
    [done | apply prop_delete_prop | done].
Qed.

Lemma run_keeps_anonymous rs : ∀ w sid,
  prop "user" (session_of w sid) = VUndefined →
  no_login sid w rs →
  prop "user" (session_of (app_run w rs) sid) = VUndefined.
Proof.
  induction rs as [|r rs IH]; intros w sid Hanon Hno; simpl in *; [done|].
  destruct Hno as [Hr Hrs]. apply IH; [|done].
  by apply handle_keeps_anonymous.
Qed.

Lemma profile_anonymous w sid q c :
  prop "user" (session_of w sid) = VUndefined →
  snd (app w (Request sid ProfileRoute q c)) = Json 401 unauthorized.
Proof.
  intros Hanon. unfold handle. simpl.
  by rewrite (session_anonymous _ _ _ Hanon).
Qed.

End Pipeline.

(** ** Looking up by external id *)

Lemma filter_none {A : Type} (P : A → Prop) `{!∀ x, Decision (P x)} (l : list A) :
  (∀ x, x ∈ l → ¬ P x) → filter P l = [].
Proof.
  intros Hnone. destruct (filter P l) as [|x xs] eqn:Hf; [done|].
  assert (x ∈ filter P l) as Hx by (rewrite Hf; by left).
  apply list_elem_of_filter in Hx as [HP Hx]. by destruct (Hnone x Hx).
Qed.

(** No row has the external id: the select finds nothing. *)
Lemma with_github_id_none (d : database) (gid : string) :
  (∀ r, r ∈ users d → github_id r ≠ gid) →
  Knex.with_github_id gid d = [].
Proof. intros Hnone. unfold Knex.with_github_id. by apply filter_none. Qed.

(** The select finds the rows with the external id, and only those. *)
Lemma with_github_id_elem (d : database) (gid : string) (r : user_row) :
  r ∈ Knex.with_github_id gid d ↔ r ∈ users d ∧ github_id r = gid.
Proof.
  unfold Knex.with_github_id. rewrite list_elem_of_filter. tauto.
Qed.

(** The first row of the table with the external id heads the select's
    result. *)
Lemma with_github_id_first (d : database) (gid : string)
    (before : list user_row) (row : user_row) (after : list user_row) :
  users d = (before ++ row :: after)%list →
  github_id row = gid →
  (∀ r, r ∈ before → github_id r ≠ gid) →
  ∃ rest, Knex.with_github_id gid d = row :: rest.
Proof.
  intros Hu Hrow Hbefore. unfold Knex.with_github_id.
  rewrite Hu, filter_app, (filter_none _ before Hbefore), filter_cons_True by done.
  by eexists.
Qed.

Lemma with_github_id_unique (l : list user_row) (row : user_row) :
  NoDup (github_id <$> l) →
  row ∈ l →
  filter (λ r, github_id r = github_id row) l = [row].
Proof.
  induction l as [|a l IH]; intros Hnd Hin; [by apply elem_of_nil in Hin|].
  rewrite fmap_cons in Hnd. apply NoDup_cons in Hnd as [Ha Hnd].
  apply elem_of_cons in Hin as [-> | Hin].
  - rewrite filter_cons_True by done. f_equal.
    destruct (filter _ l) as [|x xs] eqn:Hf; [done|].
    assert (x ∈ filter (λ r, github_id r = github_id a) l) as Hx
      by (rewrite Hf; by left).
    apply list_elem_of_filter in Hx as [Hgid Hx].
    exfalso. apply Ha. rewrite <- Hgid. by apply list_elem_of_fmap_2.
  - rewrite filter_cons_False; [by apply IH|].
    intros Hgid. apply Ha. rewrite Hgid. by apply list_elem_of_fmap_2.
Qed.

Lemma sample_db_one_row : one_row_per_external_id sample_db.
Proof.
  unfold one_row_per_external_id. simpl.
  apply NoDup_cons. split; [|apply NoDup_singleton].
  intros H. apply list_elem_of_singleton in H. discriminate H.
Defined.

(** * The claims *)

(** ** Find or create *)

(** C1. With the store answering, the verify callback looks the user up by
    the profile's external id. When the table has a row with that
    [github_id], the callback leaves the table as it is and hands [done]
    the internal id of the first such row, which under one row per
    external id is the one row with that id. When no row has that
    [github_id], it appends one row holding the profile's external id,
    avatar URL and username under the next auto-increment id, and hands
    [done] that id. *)
Theorem find_or_create (c : conditions) (d : database) (p : Profile) :
  select_status c = Up →
  (∀ before row after,
     users d = (before ++ row :: after)%list →
     github_id row = profile_id p →
     (∀ r, r ∈ before → github_id r ≠ profile_id p) →
     Server.verify c d p = (d, Called None (VObj [("id", VNum (id row))])))
  ∧ (one_row_per_external_id d →
     ∀ row, row ∈ users d → github_id row = profile_id p →
       Server.verify c d p = (d, Called None (VObj [("id", VNum (id row))])))
  ∧ ((∀ r, r ∈ users d → github_id r ≠ profile_id p) →
     insert_status c = Up →
     Server.verify c d p
     = (Database
          (users d ++ [UserRow (next_id d) (profile_id p)
                         (profile_json_avatar_url p) (profile_username p)])
          (next_id d + 1),
        Called None (VObj [("id", VNum (next_id d))]))).
Proof.
  intros Hs. split_and!.
  - intros before row after Hu Hrow Hbefore.
    destruct (with_github_id_first d _ before row after Hu Hrow Hbefore) as [rest Hm].
    by rewrite (verify_found c d p row rest Hs Hm).
  - intros Hone row Hin Hrow.
    pose proof (with_github_id_unique (users d) row Hone Hin) as Hm.
    rewrite Hrow in Hm.
    by rewrite (verify_found c d p row [] Hs Hm).
  - intros Hnone Hi.
    by rewrite (verify_created c d p Hs Hi (with_github_id_none d _ Hnone)).
Qed.

Lemma find_or_create_witness :
  select_status all_up = Up
  ∧ Server.verify all_up sample_db hubot
    = (sample_db, Called None (VObj [("id", VNum 2)]))
  ∧ Server.verify all_up sample_db octocat
    = (sample_db, Called None (VObj [("id", VNum 1)]))
  ∧ Server.verify all_up sample_db monalisa
    = (Database [octocat_row; hubot_row;
                 UserRow 3 "1296269" "https://avatars.example/u/1296269" "monalisa"] 4,
       Called None (VObj [("id", VNum 3)])).
Proof.
  pose proof (find_or_create all_up sample_db hubot eq_refl) as (Hfirst & _ & _).
  pose proof (find_or_create all_up sample_db octocat eq_refl) as (_ & Hone & _).
  pose proof (find_or_create all_up sample_db monalisa eq_refl) as (_ & _ & Hnew).
  split_and!; [reflexivity | | |].
  - apply (Hfirst [octocat_row] hubot_row []); [reflexivity..|].
    intros r Hr. apply list_elem_of_singleton in Hr. subst r. discriminate.
  - apply (Hone sample_db_one_row octocat_row); [by left | reflexivity].
  - apply Hnew; [|reflexivity].
    intros r Hr. apply elem_of_cons in Hr as [-> | Hr]; [discriminate|].
    apply list_elem_of_singleton in Hr. subst r. discriminate.
Defined.

(** C5. A login whose external id already has a row leaves the whole table,
    and so that row's username and avatar URL, exactly as stored: whatever
    the profile reports, whatever route carries the login and however the
    store behaves. *)
Theorem login_existing_user_no_update
    (CLIENT_URL AUTHORIZE_URL : string) (w : world) (r : request)
    (p : Profile) (row : user_row) :
  query r = Authorized p →
  row ∈ users (db w) →
  github_id row = profile_id p →
  fst (Server.verify (storage r) (db w) p) = db w
  ∧ db (fst (handle CLIENT_URL AUTHORIZE_URL w r)) = db w.
Proof.
  intros Hq Hrow Hgid.
  assert (fst (Server.verify (storage r) (db w) p) = db w) as Hv.
  { apply verify_present_unchanged. intros Hnil.
    exact (filter_nil_not_elem_of (λ x, github_id x = profile_id p)
             (users (db w)) row Hnil Hgid Hrow). }
  split; [done|].
  destruct (handle_database CLIENT_URL AUTHORIZE_URL w r) as [H | (p' & Hq' & H)];
    [done|].
  rewrite Hq in Hq'. injection Hq' as <-. by rewrite H.
Qed.

Lemma login_existing_user_no_update_witness :
  octocat_row ∈ users (db sample_world)
  ∧ github_id octocat_row = profile_id octocat
  ∧ avatar_url octocat_row ≠ profile_json_avatar_url octocat
  ∧ username octocat_row ≠ profile_username octocat
  ∧ db (fst (handle client_url authorize_url sample_world octocat_login))
    = sample_db.
Proof.
  assert (octocat_row ∈ users (db sample_world)) as Hrow by (by left).
  split_and!; [exact Hrow | reflexivity | discriminate | discriminate |].
  exact (proj2 (login_existing_user_no_update client_url authorize_url
                  sample_world octocat_login octocat octocat_row
                  eq_refl Hrow eq_refl)).
Defined.

(** ** Serialization *)

(** C9. [serializeUser] hands [done] the user's [id] and nothing else, also
    for a full row; and for every user object the verify callback produces,
    [req.logIn] writes exactly that number, the internal id of a row with
    the profile's external id, under the session's [user] key. *)
Theorem serialize_stores_only_id :
  (∀ row, Server.serializeUser (Knex.row_object row) = Called None (VNum (id row)))
  ∧ ∀ c d p d' user sess,
      Server.verify c d p = (d', Called None user) →
      ∃ row, row ∈ users d' ∧ github_id row = profile_id p
             ∧ Server.serializeUser user = Called None (VNum (id row))
             ∧ Passport.logIn sess user
               = Next (set_prop "user" (VNum (id row)) sess) user
             ∧ Passport.logIn [] user = Next [("user", VNum (id row))] user.
Proof.
  split; [done|].
  intros c d p d' user sess Hv.
  apply verify_result in Hv as (_ & row & Hrow & Hgid & ->).
  exists row. split_and!; [done..| |]; apply logIn_id_object.
Qed.

Lemma serialize_stores_only_id_witness :
  Server.verify all_up sample_db octocat
  = (sample_db, Called None (VObj [("id", VNum 1)]))
  ∧ ∃ row, row ∈ users sample_db ∧ github_id row = profile_id octocat
           ∧ Server.serializeUser (VObj [("id", VNum 1)]) = Called None (VNum (id row))
           ∧ Passport.logIn [("views", VNum 3)] (VObj [("id", VNum 1)])
             = Next (set_prop "user" (VNum (id row)) [("views", VNum 3)])
                    (VObj [("id", VNum 1)])
           ∧ Passport.logIn [] (VObj [("id", VNum 1)])
             = Next [("user", VNum (id row))] (VObj [("id", VNum 1)]).
Proof.
  split; [reflexivity|].
  apply (proj2 serialize_stores_only_id all_up sample_db octocat sample_db).
  reflexivity.
Defined.

(** ** The profile endpoint *)

(** C4. When the session middleware passes a request for GET /auth/profile
    on to the handler, a request without [req.user] is answered 401 with
    the body [{ message: 'Unauthorized' }], and a request with one is
    answered 200 with that user object, whose [id] is the internal id of a
    row of the table; either way the table and every session stay as they
    were. *)
Theorem profile_gate
    (CLIENT_URL AUTHORIZE_URL : string) (w : world) (r : request)
    (s : object) (u : value) :
  target r = ProfileRoute →
  Passport.session (storage r) (db w) (session_of w (cookie r)) = Next s u →
  let w' := fst (handle CLIENT_URL AUTHORIZE_URL w r) in
  let res := snd (handle CLIENT_URL AUTHORIZE_URL w r) in
  (u = VUndefined → res = Json 401 (VObj [("message", VStr "Unauthorized")]))
  ∧ (u ≠ VUndefined →
     res = Json 200 u
     ∧ ∃ row, row ∈ users (db w) ∧ member "id" u = Some (VNum (id row)))
  ∧ db w' = db w
  ∧ ∀ sid, session_of w' sid = session_of w sid.
Proof.
  intros Ht Hs.
  destruct (session_next _ _ _ _ _ Hs) as [-> Hu].
  unfold handle, dispatch, get_profile. rewrite Hs, Ht. simpl.
  split_and!.
  - by intros ->.
  - intros Hne. destruct Hu as [-> | (row & Hrow & _ & ->)]; [done|].
    split; [done|]. by exists row.
  - by destruct (is_undefined u).
  - intros sid. destruct (is_undefined u); simpl; apply session_of_write_back.
Qed.

Lemma profile_gate_witness :
  Passport.session all_up sample_db [("user", VNum 1)]
  = Next [("user", VNum 1)] (Knex.row_object octocat_row)
  ∧ snd (handle client_url authorize_url sample_world octocat_profile)
    = Json 200 (Knex.row_object octocat_row)
  ∧ db (fst (handle client_url authorize_url sample_world octocat_profile))
    = sample_db.
Proof.
  pose proof (profile_gate client_url authorize_url sample_world octocat_profile
                [("user", VNum 1)] (Knex.row_object octocat_row)
                eq_refl eq_refl) as (_ & H200 & Hdb & _).
  split; [reflexivity|]. split; [|exact Hdb].
  apply H200. discriminate.
Defined.

(** C10. For a request to GET /auth/profile whose session holds an internal
    id that the store resolves, the response is 200 and its body is the
    whole row found for that id: [id], [github_id], [avatar_url] and
    [username]. *)
Theorem profile_body_is_full_row
    (CLIENT_URL AUTHORIZE_URL : string) (w : world) (r : request)
    (n : Z) (row : user_row) (rest : list user_row) :
  target r = ProfileRoute →
  prop "user" (session_of w (cookie r)) = VNum n →
  where_id_status (storage r) = Up →
  Knex.with_id (VNum n) (db w) = row :: rest →
  snd (handle CLIENT_URL AUTHORIZE_URL w r)
  = Json 200 (VObj [("id", VNum (id row));
                    ("github_id", VStr (github_id row));
                    ("avatar_url", VStr (avatar_url row));
                    ("username", VStr (username row))])
  ∧ row ∈ users (db w) ∧ id row = n.
Proof.
  intros Ht Hu Hup Hm.
  unfold handle, dispatch, get_profile.
  rewrite (session_resolved _ _ _ n row rest Hu Hup Hm), Ht. simpl.
  split; [done|].
  assert (row ∈ Knex.with_id (VNum n) (db w)) as Hrow by (rewrite Hm; by left).
  apply list_elem_of_filter in Hrow as [Hid ?]. split; [done|].
  simpl in Hid. by apply Z.eqb_eq in Hid.
Qed.

Lemma profile_body_is_full_row_witness :
  snd (handle client_url authorize_url sample_world octocat_profile)
  = Json 200 (VObj [("id", VNum 1);
                    ("github_id", VStr "583231");
                    ("avatar_url", VStr "https://avatars.example/u/583231?v=3");
                    ("username", VStr "octocat-2011")]).
Proof.
  apply (profile_body_is_full_row client_url authorize_url sample_world
           octocat_profile 1 octocat_row []);
    reflexivity.
Defined.

(** ** Storage failure during login *)

(** When the select or the insert of the verify callback is rejected, the
    callback never invokes [done]: the strategy takes no action, nothing
    ends the response, and the world is left as it was. *)
Lemma login_storage_failure_stalls
    (CLIENT_URL AUTHORIZE_URL : string) (w : world) (r : request)
    (p : Profile) (s : object) (u : value) :
  target r = GithubCallbackRoute →
  query r = Authorized p →
  Passport.session (storage r) (db w) (session_of w (cookie r)) = Next s u →
  (∃ err, select_status (storage r) = Down err)
  ∨ (select_status (storage r) = Up
     ∧ Knex.with_github_id (profile_id p) (db w) = []
     ∧ ∃ err, insert_status (storage r) = Down err) →
  handle CLIENT_URL AUTHORIZE_URL w r = (w, NoResponse).
Proof.
  intros Ht Hq Hs Hfail.
  assert (Server.verify (storage r) (db w) p = (db w, NeverCalled)) as Hv.
  { destruct Hfail as [[err He] | (Hup & Hm & err & He)].
    - by eapply verify_select_down.
    - by eapply verify_insert_down. }
  unfold handle, dispatch, get_github_callback. rewrite Hs, Ht, Hq. simpl.
  rewrite Hv. simpl. by destruct w.
Qed.

(** C2, at a login whose select is rejected and at one whose insert is
    rejected: no session is established, but no response is produced
    either, neither the failure redirect nor an error status. *)
Theorem login_storage_failure_gets_no_response :
  handle client_url authorize_url sample_world failed_select_login
  = (sample_world, NoResponse)
  ∧ handle client_url authorize_url initial_world failed_insert_login
    = (initial_world, NoResponse)
  ∧ status_of (snd (handle client_url authorize_url sample_world
                      failed_select_login)) = None
  ∧ Server.verify select_down sample_db octocat = (sample_db, NeverCalled).
Proof.
  split_and!.
  - apply (login_storage_failure_stalls _ _ _ _ octocat [] VUndefined);
      [done.. |]. left. by eexists.
  - apply (login_storage_failure_stalls _ _ _ _ octocat [] VUndefined);
      [done.. |]. right. split_and!; [done.. |]. by eexists.
  - reflexivity.
  - reflexivity.
Qed.

(** ** Stale session references *)

(** A session whose stored id matches no row makes [deserializeUser] call
    [done(null, undefined)]; the deserializer chain turns that into an
    error, which the session middleware hands to [next]. No route handler
    runs, on any route. *)
Lemma stale_session_is_server_error
    (CLIENT_URL AUTHORIZE_URL : string) (w : world) (r : request) (n : Z) :
  prop "user" (session_of w (cookie r)) = VNum n →
  where_id_status (storage r) = Up →
  Knex.with_id (VNum n) (db w) = [] →
  Server.deserializeUser (storage r) (db w) (VNum n) = Called None VUndefined
  ∧ snd (handle CLIENT_URL AUTHORIZE_URL w r) = ServerError deserialize_failure
  ∧ db (fst (handle CLIENT_URL AUTHORIZE_URL w r)) = db w
  ∧ ∀ sid, session_of (fst (handle CLIENT_URL AUTHORIZE_URL w r)) sid
           = session_of w sid.
Proof.
  intros Hu Hup Hm. split.
  { unfold Server.deserializeUser, Knex.where_id. by rewrite Hup, Hm. }
  unfold handle. rewrite (session_stale _ _ _ n Hu Hup Hm). simpl.
  split_and!; [done..|]. intros sid. apply session_of_write_back.
Qed.

(** C3, at a profile request on a session whose user has no row: the
    request carries no user, but it does not reach the profile handler;
    the client sees a server error, not 401. *)
Theorem stale_session_profile_is_not_401 :
  Server.deserializeUser all_up sample_db (VNum 7) = Called None VUndefined
  ∧ Passport.session all_up sample_db [("user", VNum 7)]
    = NextError "Failed to deserialize user out of session"
  ∧ snd (handle client_url authorize_url stale_world stale_profile)
    = ServerError "Failed to deserialize user out of session"
  ∧ status_of (snd (handle client_url authorize_url stale_world stale_profile))
    = Some 500%Z
  ∧ snd (handle client_url authorize_url stale_world stale_profile)
    ≠ Json 401 unauthorized.
Proof.
  pose proof (stale_session_is_server_error client_url authorize_url
                stale_world stale_profile 7 eq_refl eq_refl eq_refl)
    as (Hd & Hres & _).
  split_and!; [exact Hd | reflexivity | exact Hres | by rewrite Hres |].
  rewrite Hres. discriminate.
Qed.

(** ** The OAuth callback endpoint *)

(** With the store answering, the verify callback always hands [done] the
    id object of a row with the profile's external id. *)
Lemma verify_succeeds (c : conditions) (d : database) (p : Profile) :
  select_status c = Up →
  (Knex.with_github_id (profile_id p) d = [] → insert_status c = Up) →
  ∃ d' row, Server.verify c d p = (d', Called None (Knex.id_object row))
            ∧ row ∈ users d' ∧ github_id row = profile_id p.
Proof.
  intros Hs Hi.
  assert (∃ d' user, Server.verify c d p = (d', Called None user))
    as (d' & user & Hv).
  { destruct (Knex.with_github_id (profile_id p) d) as [|r rest] eqn:Hm.
    - eexists _, _. by apply verify_created; [| apply Hi |].
    - eexists _, _. by eapply verify_found. }
  destruct (verify_result _ _ _ _ _ _ Hv) as (_ & row & Hrow & Hgid & ->).
  by exists d', row.
Qed.

(** C7, the claim as written, fails at a callback whose token exchange
    fails: the error goes to [next], and the client is not redirected to
    the failure page. It also fails at a callback that the provider
    authorized while the store rejects the select: the client is not
    redirected to the client application. *)
Lemma callback_exchange_failure_is_not_redirected :
  snd (handle client_url authorize_url sample_world failed_exchange_callback)
  = ServerError "Failed to obtain access token"
  ∧ snd (handle client_url authorize_url sample_world failed_exchange_callback)
    ≠ Redirect 302 "http://localhost:3000/auth-fail"
  ∧ snd (handle client_url authorize_url sample_world failed_select_login)
    ≠ Redirect 302 "http://localhost:3000".
Proof. split_and!; [reflexivity | discriminate | discriminate]. Qed.

(** C7, amended. For a request to the callback endpoint that the session
    middleware passes on:
    - when the provider authorized and the store answers the verify
      callback's queries, the response is a 302 redirect to [CLIENT_URL]
      and the session's [user] is the internal id of the row with the
      profile's external id;
    - when the provider denied access, the response is a 302 redirect to
      [CLIENT_URL/auth-fail], and the table and every session are as
      before;
    - when the token exchange or the profile request failed, the error is
      handed to [next] (no redirect), and the table and every session are
      as before. *)
Theorem callback_redirects
    (CLIENT_URL AUTHORIZE_URL : string) (w : world) (r : request)
    (s : object) (u : value) :
  target r = GithubCallbackRoute →
  Passport.session (storage r) (db w) (session_of w (cookie r)) = Next s u →
  let w' := fst (handle CLIENT_URL AUTHORIZE_URL w r) in
  let res := snd (handle CLIENT_URL AUTHORIZE_URL w r) in
  (∀ p, query r = Authorized p →
        select_status (storage r) = Up →
        (Knex.with_github_id (profile_id p) (db w) = [] →
         insert_status (storage r) = Up) →
        res = Redirect 302 CLIENT_URL
        ∧ ∃ row, row ∈ users (db w') ∧ github_id row = profile_id p
                 ∧ prop "user" (session_of w' (cookie r)) = VNum (id row))
  ∧ (query r = AccessDenied →
     res = Redirect 302 (CLIENT_URL +:+ "/auth-fail")
     ∧ db w' = db w ∧ ∀ sid, session_of w' sid = session_of w sid)
  ∧ (query r = TokenExchangeFailed ∨ query r = ProfileFetchFailed →
     (∃ e, res = ServerError e)
     ∧ db w' = db w ∧ ∀ sid, session_of w' sid = session_of w sid).
Proof.
  intros Ht Hs.
  destruct (session_next _ _ _ _ _ Hs) as [-> _].
  unfold handle, dispatch, get_github_callback. rewrite Hs, Ht. simpl.
  split_and!.
  - intros p Hq Hup Hins. rewrite Hq. simpl.
    destruct (verify_succeeds _ (db w) p Hup Hins) as (d' & row & -> & Hrow & Hgid).
    simpl. rewrite logIn_id_object. simpl. split; [done|].
    exists row. split_and!; [done..|].
    rewrite session_of_insert. case_decide; [|done]. apply prop_set_prop.
  - intros ->. simpl. split_and!; [done..|].
    intros sid. apply session_of_write_back.
  - intros [-> | ->]; simpl; (split_and!; [by eexists | done |]);
      intros sid; apply session_of_write_back.
Qed.

Lemma callback_redirects_witness :
  Passport.session all_up sample_db (session_of sample_world "s9")
  = Next [] VUndefined
  ∧ snd (handle client_url authorize_url sample_world octocat_login)
    = Redirect 302 client_url
  ∧ snd (handle client_url authorize_url sample_world denied_callback)
    = Redirect 302 "http://localhost:3000/auth-fail".
Proof.
  split; [reflexivity|]. split.
  - apply (proj1 (callback_redirects client_url authorize_url sample_world
                    octocat_login [] VUndefined eq_refl eq_refl)
             octocat eq_refl eq_refl).
    discriminate.
  - apply (proj1 (proj2 (callback_redirects client_url authorize_url sample_world
                           denied_callback [] VUndefined eq_refl eq_refl))).
    reflexivity.
Defined.

(** ** Logout *)

(** C8. For a session that holds the internal id of an existing row, with
    the store answering the lookup, GET /auth/logout removes the user from
    the session and answers with a 302 redirect to [CLIENT_URL]; from then
    on, after any sequence of requests (on this or other cookies) none of
    which is a successful login on this session, GET /auth/profile on the
    session answers 401. *)
Theorem logout_then_profile_unauthorized
    (CLIENT_URL AUTHORIZE_URL : string) (w : world) (sid : string)
    (q : provider_reply) (c : conditions)
    (n : Z) (row : user_row) (rest : list user_row) :
  prop "user" (session_of w sid) = VNum n →
  where_id_status c = Up →
  Knex.with_id (VNum n) (db w) = row :: rest →
  let w1 := fst (handle CLIENT_URL AUTHORIZE_URL w (Request sid LogoutRoute q c)) in
  snd (handle CLIENT_URL AUTHORIZE_URL w (Request sid LogoutRoute q c))
  = Redirect 302 CLIENT_URL
  ∧ session_of w1 sid = delete_prop "user" (session_of w sid)
  ∧ db w1 = db w
  ∧ ∀ rs q' c',
      no_login CLIENT_URL AUTHORIZE_URL sid w1 rs →
      snd (handle CLIENT_URL AUTHORIZE_URL (run CLIENT_URL AUTHORIZE_URL w1 rs)
             (Request sid ProfileRoute q' c'))
      = Json 401 (VObj [("message", VStr "Unauthorized")]).
Proof.
  intros Hu Hup Hm w1.
  assert (handle CLIENT_URL AUTHORIZE_URL w (Request sid LogoutRoute q c)
          = (World (db w) (<[sid := delete_prop "user" (session_of w sid)]> (sessions w)),
             Redirect 302 CLIENT_URL)) as Hh.
  { unfold handle, dispatch, get_logout. simpl.
    by rewrite (session_resolved _ _ _ n row rest Hu Hup Hm). }
  assert (session_of w1 sid = delete_prop "user" (session_of w sid)) as Hs1.
  { subst w1. rewrite Hh. simpl. rewrite session_of_insert. by case_decide. }
  subst w1. rewrite Hh in *. simpl in *. split_and!; [done..|].
  intros rs q' c' Hno.
  apply profile_anonymous, run_keeps_anonymous; [|done].
  rewrite Hs1. apply prop_delete_prop.
Qed.

Lemma logout_then_profile_unauthorized_witness :
  prop "user" (session_of sample_world "s1") = VNum 1
  ∧ snd (handle client_url authorize_url sample_world octocat_logout)
    = Redirect 302 client_url
  ∧ snd (handle client_url authorize_url
           (run client_url authorize_url
              (fst (handle client_url authorize_url sample_world octocat_logout))
              [octocat_denied; failed_select_login; stale_profile])
           octocat_profile)
    = Json 401 unauthorized.
Proof.
  pose proof (logout_then_profile_unauthorized client_url authorize_url
                sample_world "s1" NoCode all_up 1 octocat_row []
                eq_refl eq_refl eq_refl) as (Hres & _ & _ & Hlater).
  split_and!; [reflexivity | exact Hres |].
  apply (Hlater [octocat_denied; failed_select_login; stale_profile]).
  simpl. unfold successful_login.
  split_and!; [| | |done]; intros (Hc & _ & user & Hg);
    (discriminate Hc || discriminate Hg).
Defined.

(** ** One row per external id *)

Lemma verify_keeps_one_row c d p :
  one_row_per_external_id d →
  one_row_per_external_id (fst (Server.verify c d p)).
Proof.
  intros Hd. destruct (verify_database c d p) as [-> | [Hm ->]]; [done|].
  unfold one_row_per_external_id, with_created_row. simpl.
  rewrite fmap_app. apply NoDup_app. split_and!; [done | | apply NoDup_singleton].
  intros g Hg Hg'. apply list_elem_of_singleton in Hg'. subst g.
  apply list_elem_of_fmap in Hg as (r & Hgid & Hr).
  exact (filter_nil_not_elem_of (λ x, github_id x = profile_id p)
           (users d) r Hm (eq_sym Hgid) Hr).
Qed.

Lemma verify_extends c d p :
  users d `prefix_of` users (fst (Server.verify c d p)).
Proof.
  destruct (verify_database c d p) as [-> | [_ ->]]; [done|].
  simpl. by apply prefix_app_r.
Qed.

Section Invariant.

Variable CLIENT_URL : string.
Variable AUTHORIZE_URL : string.

Lemma handle_keeps_one_row w r :
  one_row_per_external_id (db w) →
  one_row_per_external_id (db (fst (handle CLIENT_URL AUTHORIZE_URL w r))).
Proof.
  intros Hw.
  destruct (handle_database CLIENT_URL AUTHORIZE_URL w r) as [-> | (p & _ & ->)];
    [done | by apply verify_keeps_one_row].
Qed.

Lemma handle_extends w r :
  users (db w) `prefix_of` users (db (fst (handle CLIENT_URL AUTHORIZE_URL w r))).
Proof.
  destruct (handle_database CLIENT_URL AUTHORIZE_URL w r) as [-> | (p & _ & ->)];
    [done | apply verify_extends].
Qed.

Lemma run_keeps_one_row rs : ∀ w,
  one_row_per_external_id (db w) →
  one_row_per_external_id (db (run CLIENT_URL AUTHORIZE_URL w rs)).
Proof.
  induction rs as [|r rs IH]; intros w Hw; simpl; [done|].
  by apply IH, handle_keeps_one_row.
Qed.

Lemma run_extends rs : ∀ w,
  users (db w) `prefix_of` users (db (run CLIENT_URL AUTHORIZE_URL w rs)).
Proof.
  induction rs as [|r rs IH]; intros w; simpl; [done|].
  etrans; [apply handle_extends | apply IH].
Qed.

End Invariant.

(** C6. Handling requests one at a time keeps the table at one row per
    external id: no two rows share a [github_id]. With the store answering,
    a login whose external id no row of the table has appends exactly one
    row, with that external id, and hands [done] its id; after any further
    requests that row is in the table and is the only row with that
    external id, and a login with the same external id creates no row and,
    when its select is answered, hands [done] the same internal id. *)
Theorem one_row_per_external_id_invariant
    (CLIENT_URL AUTHORIZE_URL : string) (w : world)
    (c : conditions) (p : Profile) :
  one_row_per_external_id (db w) →
  (∀ rs, one_row_per_external_id (db (run CLIENT_URL AUTHORIZE_URL w rs)))
  ∧ ((∀ r, r ∈ users (db w) → github_id r ≠ profile_id p) →
     select_status c = Up →
     insert_status c = Up →
     let row := UserRow (next_id (db w)) (profile_id p)
                  (profile_json_avatar_url p) (profile_username p) in
     let d1 := fst (Server.verify c (db w) p) in
     users d1 = (users (db w) ++ [row])%list
     ∧ snd (Server.verify c (db w) p) = Called None (VObj [("id", VNum (id row))])
     ∧ ∀ rs c' p',
         profile_id p' = profile_id p →
         let d2 := db (run CLIENT_URL AUTHORIZE_URL (World d1 (sessions w)) rs) in
         row ∈ users d2
         ∧ (∀ r, r ∈ users d2 → github_id r = profile_id p → r = row)
         ∧ fst (Server.verify c' d2 p') = d2
         ∧ (select_status c' = Up →
            snd (Server.verify c' d2 p') = Called None (VObj [("id", VNum (id row))]))).
Proof.
  intros Hw. split; [intros rs; by apply run_keeps_one_row|].
  intros Hnone Hs Hi row d1.
  pose proof (with_github_id_none (db w) _ Hnone) as Hm.
  assert (Server.verify c (db w) p
          = (with_created_row (db w) p, Called None (Knex.id_object row))) as Hv
    by by apply verify_created.
  subst d1. rewrite Hv. cbn [fst snd]. split_and!; [done..|].
  intros rs c' p' Hp.
  set (d2 := db (run _ _ _ rs)).
  assert (one_row_per_external_id d2) as Hd2.
  { apply run_keeps_one_row. simpl.
    pose proof (verify_keeps_one_row c (db w) p Hw) as H. by rewrite Hv in H. }
  assert (row ∈ users d2) as Hrow.
  { eapply elem_of_prefix; [|apply run_extends]. simpl.
    apply elem_of_app. right. by left. }
  assert (Knex.with_github_id (profile_id p) d2 = [row]) as Hone
    by exact (with_github_id_unique (users d2) row Hd2 Hrow).
  split_and!; [done | | |].
  - intros r Hr Hgid.
    assert (r ∈ Knex.with_github_id (profile_id p) d2) as Hin
      by (by apply with_github_id_elem).
    rewrite Hone in Hin. by apply list_elem_of_singleton in Hin.
  - apply verify_present_unchanged. by rewrite Hp, Hone.
  - intros Hs'. rewrite <- Hp in Hone.
    by rewrite (verify_found c' d2 p' row [] Hs' Hone).
Qed.

Lemma one_row_per_external_id_invariant_witness :
  one_row_per_external_id (db sample_world)
  ∧ (∀ r, r ∈ users (db sample_world) → github_id r ≠ profile_id monalisa)
  ∧ users (fst (Server.verify all_up (db sample_world) monalisa))
    = [octocat_row; hubot_row;
       UserRow 3 "1296269" "https://avatars.example/u/1296269" "monalisa"]
  ∧ snd (Server.verify all_up
           (db (run client_url authorize_url
                  (World (fst (Server.verify all_up (db sample_world) monalisa))
                         (sessions sample_world))
                  [octocat_login; denied_callback]))
           monalisa)
    = Called None (VObj [("id", VNum 3)])
  ∧ one_row_per_external_id
      (db (run client_url authorize_url sample_world
             [monalisa_login; octocat_login; monalisa_login])).
Proof.
  assert (∀ r, r ∈ users (db sample_world) → github_id r ≠ profile_id monalisa)
    as Hnone.
  { intros r Hr. apply elem_of_cons in Hr as [-> | Hr]; [discriminate|].
    apply list_elem_of_singleton in Hr. subst r. discriminate. }
  pose proof (one_row_per_external_id_invariant client_url authorize_url
                sample_world all_up monalisa sample_db_one_row) as [Hinv Hfirst].
  destruct (Hfirst Hnone eq_refl eq_refl) as (Husers & _ & Hlater).
  split_and!; [exact sample_db_one_row | exact Hnone | exact Husers | | apply Hinv].
  apply (Hlater [octocat_login; denied_callback] all_up monalisa eq_refl).
  reflexivity.
Defined.

(** * Further properties of the modelled code *)

(** ** Internal ids *)

Lemma filter_key_unique {A K : Type} (f : A → K) (P : A → Prop)
    `{!∀ x, Decision (P x)} (l : list A) (x : A) :
  NoDup (f <$> l) →
  x ∈ l →
  P x →
  (∀ y, P y → f y = f x) →
  filter P l = [x].
Proof.
  intros Hnd Hin HP Hkey.
  induction l as [|a l IH]; [by apply elem_of_nil in Hin|].
  rewrite fmap_cons in Hnd. apply NoDup_cons in Hnd as [Ha Hnd].
  apply elem_of_cons in Hin as [<- | Hin].
  - rewrite filter_cons_True by done. f_equal.
    destruct (filter P l) as [|y ys] eqn:Hf; [done|].
    assert (y ∈ filter P l) as Hy by (rewrite Hf; by left).
    apply list_elem_of_filter in Hy as [HPy Hy].
    exfalso. apply Ha. rewrite <- (Hkey y HPy). by apply list_elem_of_fmap_2.
  - rewrite filter_cons_False; [by apply IH|].
    intros HPa. apply Ha. rewrite (Hkey a HPa). by apply list_elem_of_fmap_2.
Qed.

Lemma with_id_unique (d : database) (row : user_row) :
  NoDup (id <$> users d) →
  row ∈ users d →
  Knex.with_id (VNum (id row)) d = [row].
Proof.
  intros Hnd Hin. unfold Knex.with_id.
  apply (filter_key_unique id); [done.. | |].
  - simpl. apply Z.eqb_refl.
  - intros y Hy. simpl in Hy. by apply Z.eqb_eq in Hy.
Qed.

Lemma verify_keeps_ids_fresh c d p :
  ids_fresh d → ids_fresh (fst (Server.verify c d p)).
Proof.
  intros [Hnd Hlt]. destruct (verify_database c d p) as [-> | [_ ->]]; [done|].
  unfold ids_fresh, with_created_row. simpl. split.
  - rewrite fmap_app. apply NoDup_app. split_and!; [done | | apply NoDup_singleton].
    intros n Hn Hn'. apply list_elem_of_singleton in Hn'. subst n.
    apply list_elem_of_fmap in Hn as (r & Hid & Hr).
    specialize (Hlt r Hr). simpl in Hid. lia.
  - intros r Hr. apply elem_of_app in Hr as [Hr | Hr].
    + specialize (Hlt r Hr). lia.
    + apply list_elem_of_singleton in Hr. subst r. simpl. lia.
Qed.

Lemma handle_keeps_ids_fresh (CLIENT_URL AUTHORIZE_URL : string) w r :
  ids_fresh (db w) →
  ids_fresh (db (fst (handle CLIENT_URL AUTHORIZE_URL w r))).
Proof.
  intros Hw.
  destruct (handle_database CLIENT_URL AUTHORIZE_URL w r) as [-> | (p & _ & ->)];
    [done | by apply verify_keeps_ids_fresh].
Qed.

(** X1. The application never supplies an id of its own, so across any
    sequence of requests the rows keep distinct internal ids, all below
    the store's counter. *)
Theorem internal_ids_stay_distinct
    (CLIENT_URL AUTHORIZE_URL : string) (w : world) (rs : list request) :
  ids_fresh (db w) →
  ids_fresh (db (run CLIENT_URL AUTHORIZE_URL w rs)).
Proof.
  revert w. induction rs as [|r rs IH]; intros w Hw; simpl; [done|].
  by apply IH, handle_keeps_ids_fresh.
Qed.

Lemma sample_db_ids_fresh : ids_fresh sample_db.
Proof.
  split.
  - simpl. apply NoDup_cons. split; [|apply NoDup_singleton].
    intros H. apply list_elem_of_singleton in H. discriminate H.
  - intros r Hr. simpl in Hr.
    apply elem_of_cons in Hr as [-> | Hr]; [done|].
    apply list_elem_of_singleton in Hr. by subst r.
Defined.

Lemma internal_ids_stay_distinct_witness :
  ids_fresh (db sample_world)
  ∧ ids_fresh (db (run client_url authorize_url sample_world
                     [monalisa_login; octocat_login; monalisa_login])).
Proof.
  split; [exact sample_db_ids_fresh|].
  apply internal_ids_stay_distinct. exact sample_db_ids_fresh.
Defined.

(** ** Round trips *)

(** X2. What [serializeUser] stores for a row of the table, or for the id
    object the verify callback hands over, is what [deserializeUser] needs
    to find that row again: with distinct ids and the store answering,
    logging a user in and then running the session middleware on the
    resulting session attaches the full row. This includes the id 0, which
    the chains accept although it is falsy. *)
Theorem serialize_deserialize_round_trip
    (c : conditions) (d : database) (row : user_row) (user : value) (sess : object) :
  NoDup (id <$> users d) →
  row ∈ users d →
  where_id_status c = Up →
  user = Knex.row_object row ∨ user = Knex.id_object row →
  ∃ v, Server.serializeUser user = Called None v
       ∧ Server.deserializeUser c d v = Called None (Knex.row_object row)
       ∧ Passport.logIn sess user = Next (set_prop "user" v sess) user
       ∧ Passport.session c d (set_prop "user" v sess)
         = Next (set_prop "user" v sess) (Knex.row_object row).
Proof.
  intros Hnd Hin Hup Huser. exists (VNum (id row)).
  pose proof (with_id_unique d row Hnd Hin) as Hm.
  assert (Server.serializeUser user = Called None (VNum (id row))) as Hser
    by (by destruct Huser as [-> | ->]).
  assert (Passport.logIn sess user = Next (set_prop "user" (VNum (id row)) sess) user)
    as Hlog.
  { destruct Huser as [-> | ->]; [|apply logIn_id_object].
    unfold logIn, Knex.row_object. by rewrite (serialize_number _ (id row)). }
  split_and!; [done | | done |].
  - unfold Server.deserializeUser, Knex.where_id. by rewrite Hup, Hm.
  - apply (session_resolved c d _ (id row) row []); [apply prop_set_prop | done..].
Qed.

Lemma serialize_deserialize_round_trip_witness :
  zero_row ∈ users zero_db
  ∧ ∃ v, Server.serializeUser (Knex.id_object zero_row) = Called None v
         ∧ Server.deserializeUser all_up zero_db v
           = Called None (Knex.row_object zero_row)
         ∧ Passport.logIn [] (Knex.id_object zero_row)
           = Next (set_prop "user" v []) (Knex.id_object zero_row)
         ∧ Passport.session all_up zero_db (set_prop "user" v [])
           = Next (set_prop "user" v []) (Knex.row_object zero_row).
Proof.
  assert (zero_row ∈ users zero_db) as Hin by (by left).
  split; [exact Hin|].
  apply (serialize_deserialize_round_trip all_up zero_db zero_row);
    [apply NoDup_singleton | exact Hin | reflexivity | by right].
Defined.

(** With the store answering, the verify callback hands over either the
    first matching row, leaving the table alone, or the row it created. *)
Lemma verify_outcome (c : conditions) (d : database) (p : Profile) :
  select_status c = Up →
  (Knex.with_github_id (profile_id p) d = [] → insert_status c = Up) →
  ∃ d' row,
    Server.verify c d p = (d', Called None (Knex.id_object row))
    ∧ row ∈ users d'
    ∧ github_id row = profile_id p
    ∧ ((Knex.with_github_id (profile_id p) d = []
        ∧ d' = with_created_row d p ∧ row = created_row d p)
       ∨ (∃ rest, Knex.with_github_id (profile_id p) d = row :: rest ∧ d' = d)).
Proof.
  intros Hs Hi.
  destruct (Knex.with_github_id (profile_id p) d) as [|r rest] eqn:Hm.
  - exists (with_created_row d p), (created_row d p). split_and!.
    + by apply verify_created; [| apply Hi |].
    + simpl. apply elem_of_app. right. by left.
    + done.
    + by left.
  - assert (r ∈ Knex.with_github_id (profile_id p) d) as Hr by (rewrite Hm; by left).
    apply list_elem_of_filter in Hr as [Hgid Hr].
    exists d, r. split_and!; [by eapply verify_found | done | done |].
    right. by exists rest.
Qed.

(** The world after a login that succeeds. *)
Lemma login_success
    (CLIENT_URL AUTHORIZE_URL : string) (w : world) (r : request)
    (p : Profile) (s : object) (u : value) (d' : database) (row : user_row) :
  target r = GithubCallbackRoute →
  query r = Authorized p →
  Passport.session (storage r) (db w) (session_of w (cookie r)) = Next s u →
  Server.verify (storage r) (db w) p = (d', Called None (Knex.id_object row)) →
  handle CLIENT_URL AUTHORIZE_URL w r
  = (World d' (<[cookie r := set_prop "user" (VNum (id row))
                               (session_of w (cookie r))]> (sessions w)),
     Redirect 302 CLIENT_URL).
Proof.
  intros Ht Hq Hs Hv.
  destruct (session_next _ _ _ _ _ Hs) as [-> _].
  unfold handle, dispatch, get_github_callback. rewrite Hs, Ht, Hq. simpl.
  rewrite Hv. simpl. by rewrite logIn_id_object.
Qed.

(** X3. A login followed by a profile request on the same cookie: with
    distinct internal ids and the store answering, the profile request is
    answered 200 with the full row of the user who logged in. For a first
    login that row carries the profile's username and avatar URL; for a
    returning user it is the row as stored, whatever the profile said. *)
Theorem login_then_profile
    (CLIENT_URL AUTHORIZE_URL : string) (w : world) (r : request)
    (p : Profile) (s : object) (u : value)
    (q' : provider_reply) (c' : conditions) :
  ids_fresh (db w) →
  target r = GithubCallbackRoute →
  query r = Authorized p →
  Passport.session (storage r) (db w) (session_of w (cookie r)) = Next s u →
  select_status (storage r) = Up →
  (Knex.with_github_id (profile_id p) (db w) = [] → insert_status (storage r) = Up) →
  where_id_status c' = Up →
  let w1 := fst (handle CLIENT_URL AUTHORIZE_URL w r) in
  ∃ row,
    snd (handle CLIENT_URL AUTHORIZE_URL w1 (Request (cookie r) ProfileRoute q' c'))
    = Json 200 (Knex.row_object row)
    ∧ row ∈ users (db w1)
    ∧ github_id row = profile_id p
    ∧ (Knex.with_github_id (profile_id p) (db w) = [] →
       row = UserRow (next_id (db w)) (profile_id p)
               (profile_json_avatar_url p) (profile_username p))
    ∧ (∀ r0 rest, Knex.with_github_id (profile_id p) (db w) = r0 :: rest →
       row = r0 ∧ db w1 = db w).
Proof.
  intros Hfresh Ht Hq Hs Hup Hins Hup' w1.
  destruct (verify_outcome _ (db w) p Hup Hins)
    as (d' & row & Hv & Hrow & Hgid & Hcase).
  pose proof (login_success CLIENT_URL AUTHORIZE_URL w r p s u d' row Ht Hq Hs Hv) as Hh.
  pose proof (verify_keeps_ids_fresh (storage r) (db w) p Hfresh) as [Hnd _].
  rewrite Hv in Hnd. simpl in Hnd.
  subst w1. rewrite Hh. simpl. exists row.
  split_and!; [| done | done | |].
  - unfold handle, dispatch, get_profile. simpl.
    rewrite (session_resolved c' d' _ (id row) row []); [done | | done |].
    + rewrite session_of_insert. case_decide; [|done]. apply prop_set_prop.
    + by apply with_id_unique.
  - intros Hm. destruct Hcase as [(_ & _ & ->) | (rest & Hm' & _)]; [done|congruence].
  - intros r0 rest Hm. destruct Hcase as [(Hm' & _) | (rest' & Hm' & ->)]; [congruence|].
    rewrite Hm in Hm'. by injection Hm' as -> _.
Qed.

Lemma login_then_profile_witness :
  ids_fresh (db sample_world)
  ∧ ∃ row,
      snd (handle client_url authorize_url
             (fst (handle client_url authorize_url sample_world monalisa_login))
             monalisa_profile)
      = Json 200 (Knex.row_object row)
      ∧ row ∈ users (db (fst (handle client_url authorize_url sample_world
                                monalisa_login)))
      ∧ github_id row = "1296269"
      ∧ (Knex.with_github_id "1296269" sample_db = [] →
         row = UserRow 3 "1296269" "https://avatars.example/u/1296269" "monalisa")
      ∧ (∀ r0 rest, Knex.with_github_id "1296269" sample_db = r0 :: rest →
         row = r0
         ∧ db (fst (handle client_url authorize_url sample_world monalisa_login))
           = sample_db).
Proof.
  split; [exact sample_db_ids_fresh|].
  apply (login_then_profile client_url authorize_url sample_world monalisa_login
           monalisa [] VUndefined NoCode all_up sample_db_ids_fresh);
    reflexivity.
Defined.

(** ** Requests stopped inside the session middleware *)

(** X4. While a session holds a user, a rejected lookup in
    [deserializeUser] is only logged: [done] is never called, so on every
    route, logout included, the request gets no response and the world is
    left exactly as it was. *)
Theorem lookup_failure_stalls_every_route
    (CLIENT_URL AUTHORIZE_URL : string) (w : world) (r : request)
    (n : Z) (err : string) :
  prop "user" (session_of w (cookie r)) = VNum n →
  where_id_status (storage r) = Down err →
  Server.deserializeUser (storage r) (db w) (VNum n) = NeverCalled
  ∧ handle CLIENT_URL AUTHORIZE_URL w r = (w, NoResponse).
Proof.
  intros Hu Hdown. split.
  - unfold Server.deserializeUser, Knex.where_id. by rewrite Hdown.
  - unfold handle. rewrite (session_down _ _ _ n err Hu Hdown). by destruct w.
Qed.

Lemma lookup_failure_stalls_every_route_witness :
  prop "user" (session_of sample_world "s1") = VNum 1
  ∧ handle client_url authorize_url sample_world octocat_profile_lookup_down
    = (sample_world, NoResponse)
  ∧ handle client_url authorize_url sample_world
      (Request "s1" LogoutRoute NoCode lookup_down)
    = (sample_world, NoResponse).
Proof.
  split_and!; [reflexivity | |].
  - apply (lookup_failure_stalls_every_route client_url authorize_url
             sample_world octocat_profile_lookup_down 1 "ECONNREFUSED");
      reflexivity.
  - apply (lookup_failure_stalls_every_route client_url authorize_url
             sample_world (Request "s1" LogoutRoute NoCode lookup_down)
             1 "ECONNREFUSED"); reflexivity.
Defined.

Section StaleSessions.

Variable CLIENT_URL : string.
Variable AUTHORIZE_URL : string.

Local Abbreviation serve := (handle CLIENT_URL AUTHORIZE_URL).

(** A request on a stale session changes neither the table nor any
    session, whatever the route and the storage conditions. *)
Lemma stale_request_changes_nothing w r n :
  prop "user" (session_of w (cookie r)) = VNum n →
  Knex.with_id (VNum n) (db w) = [] →
  db (fst (serve w r)) = db w
  ∧ ∀ sid, session_of (fst (serve w r)) sid = session_of w sid.
Proof.
  intros Hu Hm. destruct (where_id_status (storage r)) as [|err] eqn:Hst.
  - destruct (stale_session_is_server_error CLIENT_URL AUTHORIZE_URL w r n Hu Hst Hm)
      as (_ & _ & Hd & Hsess). by split.
  - unfold handle. by rewrite (session_down _ _ _ n err Hu Hst).
Qed.

Lemma verify_keeps_id_absent c d p n :
  Knex.with_id (VNum n) d = [] →
  (n < next_id d)%Z →
  Knex.with_id (VNum n) (fst (Server.verify c d p)) = []
  ∧ (n < next_id (fst (Server.verify c d p)))%Z.
Proof.
  intros Hm Hlt. destruct (verify_database c d p) as [-> | [_ ->]]; [done|].
  split; [|simpl; lia].
  unfold Knex.with_id, with_created_row in *. cbn [users].
  rewrite filter_app, Hm, filter_cons_False; [done|].
  simpl. intros Heq. apply Z.eqb_eq in Heq. lia.
Qed.

Lemma handle_keeps_stale w r sid n :
  stale w sid n → stale (fst (serve w r)) sid n.
Proof.
  intros (Hu & Hm & Hlt). unfold stale.
  destruct (decide (cookie r = sid)) as [<- | Hne].
  - destruct (stale_request_changes_nothing w r n Hu Hm) as [-> ->]. done.
  - assert (session_of (fst (serve w r)) sid = session_of w sid) as ->.
    { destruct (handle_session CLIENT_URL AUTHORIZE_URL w r sid)
        as [H | [(Hc & _) | [(Hc & _) _]]]; done. }
    split; [done|].
    destruct (handle_database CLIENT_URL AUTHORIZE_URL w r) as [-> | (p & _ & ->)];
      [done | by apply verify_keeps_id_absent].
Qed.

Lemma run_keeps_stale rs : ∀ w sid n,
  stale w sid n → stale (run CLIENT_URL AUTHORIZE_URL w rs) sid n.
Proof.
  induction rs as [|r rs IH]; intros w sid n Hst; simpl; [done|].
  by apply IH, handle_keeps_stale.
Qed.

End StaleSessions.

(** X5. A session whose user has no row stays broken: after any sequence of
    requests, on this cookie or others, logins and logouts included, every
    request on the cookie still ends in the session middleware (a server
    error when the lookup is answered, no response when it is rejected)
    and the session still holds the same id. Neither logging out nor
    logging in again is reachable from such a session. *)
Theorem stale_session_never_recovers
    (CLIENT_URL AUTHORIZE_URL : string) (w : world) (sid : string) (n : Z)
    (rs : list request) (r : request) :
  prop "user" (session_of w sid) = VNum n →
  Knex.with_id (VNum n) (db w) = [] →
  (n < next_id (db w))%Z →
  cookie r = sid →
  let w' := run CLIENT_URL AUTHORIZE_URL w rs in
  prop "user" (session_of w' sid) = VNum n
  ∧ (where_id_status (storage r) = Up →
     snd (handle CLIENT_URL AUTHORIZE_URL w' r)
     = ServerError "Failed to deserialize user out of session")
  ∧ (where_id_status (storage r) ≠ Up →
     snd (handle CLIENT_URL AUTHORIZE_URL w' r) = NoResponse)
  ∧ prop "user" (session_of (fst (handle CLIENT_URL AUTHORIZE_URL w' r)) sid)
    = VNum n.
Proof.
  intros Hu Hm Hlt Hc w'.
  destruct (run_keeps_stale CLIENT_URL AUTHORIZE_URL rs w sid n (conj Hu (conj Hm Hlt)))
    as (Hu' & Hm' & _).
  fold w' in Hu', Hm'. subst sid. split_and!; [done | | |].
  - intros Hup.
    by destruct (stale_session_is_server_error CLIENT_URL AUTHORIZE_URL w' r n
                   Hu' Hup Hm') as (_ & -> & _).
  - intros Hdown. destruct (where_id_status (storage r)) as [|err] eqn:Hst; [done|].
    unfold handle. by rewrite (session_down _ _ _ n err Hu' Hst).
  - destruct (stale_request_changes_nothing CLIENT_URL AUTHORIZE_URL w' r n Hu' Hm')
      as [_ ->]. done.
Qed.

Lemma stale_session_never_recovers_witness :
  prop "user" (session_of deleted_user_world "s7") = VNum 7
  ∧ snd (handle client_url authorize_url
           (run client_url authorize_url deleted_user_world
              [stale_logout; stale_login; monalisa_login])
           stale_profile)
    = ServerError "Failed to deserialize user out of session".
Proof.
  split; [reflexivity|].
  apply (stale_session_never_recovers client_url authorize_url deleted_user_world
           "s7" 7 [stale_logout; stale_login; monalisa_login] stale_profile);
    reflexivity.
Defined.

(** ** What the verify callback can and cannot report *)

Lemma verify_callback_cases (c : conditions) (d : database) (p : Profile) :
  Server.verify c d p = (d, NeverCalled)
  ∨ ∃ d' row, Server.verify c d p = (d', Called None (Knex.id_object row)).
Proof.
  unfold Server.verify, Knex.select_id_where_github_id, Knex.insert.
  destruct (select_status c); [|by left].
  destruct (Knex.with_github_id (profile_id p) d) as [|r0 rest]; simpl.
  - destruct (insert_status c); [|by left].
    right. by exists (with_created_row d p), (created_row d p).
  - right. by exists d, r0.
Qed.

(** X6. The verify callback only ever calls [done(null, user)] or does not
    call it at all. So a callback request that the provider authorized is
    either answered with the redirect to [CLIENT_URL], with the user
    stored in the session, or never answered and without effect; it is
    never sent to the failure page and never ends in an error. *)
Theorem authorized_callback_outcomes
    (CLIENT_URL AUTHORIZE_URL : string) (w : world) (r : request)
    (p : Profile) (s : object) (u : value) :
  target r = GithubCallbackRoute →
  query r = Authorized p →
  Passport.session (storage r) (db w) (session_of w (cookie r)) = Next s u →
  (snd (Server.verify (storage r) (db w) p) = NeverCalled
   ∧ handle CLIENT_URL AUTHORIZE_URL w r = (w, NoResponse))
  ∨ (∃ row, snd (Server.verify (storage r) (db w) p)
            = Called None (VObj [("id", VNum (id row))])
            ∧ snd (handle CLIENT_URL AUTHORIZE_URL w r) = Redirect 302 CLIENT_URL
            ∧ prop "user" (session_of (fst (handle CLIENT_URL AUTHORIZE_URL w r))
                             (cookie r))
              = VNum (id row)).
Proof.
  intros Ht Hq Hs.
  destruct (verify_callback_cases (storage r) (db w) p) as [Hv | (d' & row & Hv)].
  - left. rewrite Hv. split; [done|].
    destruct (session_next _ _ _ _ _ Hs) as [-> _].
    unfold handle, dispatch, get_github_callback. rewrite Hs, Ht, Hq. simpl.
    rewrite Hv. simpl. by destruct w.
  - right. exists row.
    rewrite Hv, (login_success _ _ w r p s u d' row Ht Hq Hs Hv). simpl.
    split_and!; [done..|].
    rewrite session_of_insert. case_decide; [|done]. apply prop_set_prop.
Qed.

Lemma authorized_callback_outcomes_witness :
  Passport.session all_up sample_db (session_of sample_world "s9")
  = Next [] VUndefined
  ∧ handle client_url authorize_url sample_world failed_select_login
    = (sample_world, NoResponse)
  ∧ snd (handle client_url authorize_url sample_world monalisa_login)
    = Redirect 302 client_url.
Proof.
  split; [reflexivity|]. split.
  - destruct (authorized_callback_outcomes client_url authorize_url sample_world
                failed_select_login octocat [] VUndefined eq_refl eq_refl eq_refl)
      as [[_ H] | (row & H & _)]; [exact H | discriminate H].
  - destruct (authorized_callback_outcomes client_url authorize_url sample_world
                monalisa_login monalisa [] VUndefined eq_refl eq_refl eq_refl)
      as [[H _] | (row & _ & H & _)]; [discriminate H | exact H].
Defined.

(** ** Who writes to the store, and to which session *)

(** X7. Rows are only ever appended: after any sequence of requests the old
    table is a prefix of the new one. And only a request that carries an
    authorized provider reply can append: any sequence of logouts, profile
    requests, login starts and denied or failed callbacks leaves the table
    as it was. *)
Theorem store_written_only_by_authorized_login
    (CLIENT_URL AUTHORIZE_URL : string) (w : world) (rs : list request) :
  users (db w) `prefix_of` users (db (run CLIENT_URL AUTHORIZE_URL w rs))
  ∧ (Forall (λ r, ∀ p, query r ≠ Authorized p) rs →
     db (run CLIENT_URL AUTHORIZE_URL w rs) = db w).
Proof.
  split; [apply run_extends|].
  revert w. induction rs as [|r rs IH]; intros w Hall; simpl; [done|].
  apply Forall_cons in Hall as [Hr Hrs].
  rewrite (IH _ Hrs).
  destruct (handle_database CLIENT_URL AUTHORIZE_URL w r) as [H | (p & Hq & _)];
    [done | by destruct (Hr p)].
Qed.

Lemma store_written_only_by_authorized_login_witness :
  Forall (λ r, ∀ p, query r ≠ Authorized p)
    [octocat_logout; denied_callback; failed_exchange_callback; login_start]
  ∧ db (run client_url authorize_url sample_world
          [octocat_logout; denied_callback; failed_exchange_callback; login_start])
    = sample_db.
Proof.
  assert (Forall (λ r, ∀ p, query r ≠ Authorized p)
            [octocat_logout; denied_callback; failed_exchange_callback; login_start])
    as Hall by (repeat constructor; intros p; discriminate).
  split; [exact Hall|].
  exact (proj2 (store_written_only_by_authorized_login client_url authorize_url
                  sample_world _) Hall).
Defined.


(** ** Edge cases of serialization, logout and the gate *)

(** X9. [serializeUser] passes on whatever [user.id] is. When the user
    object has no usable id (the field is missing, [undefined], [null],
    [false] or the empty string), the serializer chain rejects the login
    with a serialization error and the session is not written; a user
    that is [undefined] or [null] makes [serializeUser] throw. *)
Theorem login_without_id_fails (sess : object) (o : object) :
  truthy (prop "id" o) = false →
  is_zero (prop "id" o) = false →
  Server.serializeUser (VObj o) = Called None (prop "id" o)
  ∧ Passport.logIn sess (VObj o) = NextError "Failed to serialize user into session"
  ∧ Server.serializeUser VUndefined = Threw "TypeError"
  ∧ Passport.logIn sess VNull = NextError "TypeError".
Proof.
  intros Ht Hz. split_and!; [done | | done | done].
  unfold logIn, serialize, Server.serializeUser. simpl. by rewrite Ht, Hz.
Qed.

Lemma login_without_id_fails_witness :
  truthy (prop "id" [("login", VStr "octocat")]) = false
  ∧ Passport.logIn [("user", VNum 1)] (VObj [("login", VStr "octocat")])
    = NextError "Failed to serialize user into session".
Proof.
  split; [reflexivity|].
  apply (login_without_id_fails [("user", VNum 1)] [("login", VStr "octocat")]);
    reflexivity.
Defined.

Lemma prop_delete_prop_other k k' (o : object) :
  prop k (delete_prop k' o) = if String.eqb k k' then VUndefined else prop k o.
Proof.
  induction o as [|[k0 v0] o IH]; simpl; [by destruct (String.eqb k k')|].
  destruct (String.eqb k' k0) eqn:E0.
  - rewrite IH. destruct (String.eqb k k') eqn:E; [done|].
    apply String.eqb_eq in E0. subst k0. by rewrite E.
  - simpl. destruct (String.eqb k k0) eqn:E1; [|done].
    apply String.eqb_eq in E1. subst k0.
    destruct (String.eqb k k') eqn:E; [|done].
    apply String.eqb_eq in E. subst k'. by rewrite String.eqb_refl in E0.
Qed.

(** X10. Logging out without being logged in is harmless and needs no
    store: for a session without a user, GET /auth/logout answers with the
    302 redirect to [CLIENT_URL] whatever the storage conditions, and the
    table and every field of every session read as before. *)
Theorem logout_when_anonymous
    (CLIENT_URL AUTHORIZE_URL : string) (w : world) (sid : string)
    (q : provider_reply) (c : conditions) :
  prop "user" (session_of w sid) = VUndefined →
  let w' := fst (handle CLIENT_URL AUTHORIZE_URL w (Request sid LogoutRoute q c)) in
  snd (handle CLIENT_URL AUTHORIZE_URL w (Request sid LogoutRoute q c))
  = Redirect 302 CLIENT_URL
  ∧ db w' = db w
  ∧ ∀ sid' k, prop k (session_of w' sid') = prop k (session_of w sid').
Proof.
  intros Hanon w'. subst w'.
  unfold handle, dispatch, get_logout. simpl.
  rewrite (session_anonymous _ _ _ Hanon). simpl. split_and!; [done..|].
  intros sid' k. rewrite session_of_insert. case_decide as Hsid; [|done].
  subst sid'. rewrite prop_delete_prop_other.
  destruct (String.eqb k "user") eqn:E; [|done].
  apply String.eqb_eq in E. by subst k.
Qed.

Lemma logout_when_anonymous_witness :
  prop "user" (session_of sample_world "s9") = VUndefined
  ∧ snd (handle client_url authorize_url sample_world anonymous_logout)
    = Redirect 302 client_url
  ∧ db (fst (handle client_url authorize_url sample_world anonymous_logout))
    = sample_db.
Proof.
  pose proof (logout_when_anonymous client_url authorize_url sample_world
                "s9" NoCode lookup_down eq_refl) as (Hres & Hdb & _).
  split_and!; [reflexivity | exact Hres | exact Hdb].
Defined.

(** X11. A session that has no user stays locked out of the profile
    endpoint until a login succeeds on it: after any sequence of requests
    none of which is a successful login on that cookie, GET /auth/profile
    answers 401 with [{ message: 'Unauthorized' }], whatever the storage
    conditions, and changes nothing. *)
Theorem profile_without_login_unauthorized
    (CLIENT_URL AUTHORIZE_URL : string) (w : world) (sid : string)
    (rs : list request) (q : provider_reply) (c : conditions) :
  prop "user" (session_of w sid) = VUndefined →
  no_login CLIENT_URL AUTHORIZE_URL sid w rs →
  let w' := run CLIENT_URL AUTHORIZE_URL w rs in
  snd (handle CLIENT_URL AUTHORIZE_URL w' (Request sid ProfileRoute q c))
  = Json 401 (VObj [("message", VStr "Unauthorized")])
  ∧ db (fst (handle CLIENT_URL AUTHORIZE_URL w' (Request sid ProfileRoute q c)))
    = db w'.
Proof.
  intros Hanon Hno w'.
  pose proof (run_keeps_anonymous CLIENT_URL AUTHORIZE_URL rs w sid Hanon Hno) as Hw'.
  fold w' in Hw'. split; [by apply profile_anonymous|].
  unfold handle. simpl. by rewrite (session_anonymous _ _ _ Hw').
Qed.

Lemma profile_without_login_unauthorized_witness :
  prop "user" (session_of initial_world "s9") = VUndefined
  ∧ snd (handle client_url authorize_url
           (run client_url authorize_url initial_world
              [login_start; denied_callback; failed_insert_login; anonymous_logout])
           anonymous_profile)
    = Json 401 unauthorized.
Proof.
  split; [reflexivity|].
  apply (profile_without_login_unauthorized client_url authorize_url initial_world
           "s9" [login_start; denied_callback; failed_insert_login; anonymous_logout]
           NoCode lookup_down eq_refl).
  simpl. unfold successful_login.
  split_and!; [| | | |done]; intros (_ & _ & user & Hg); discriminate Hg.
Defined.

(** ** Repeating and starting a login *)

(** X12. Find-or-create is idempotent: with the store answering, running
    the verify callback again on the table it produced hands [done] the
    same user and leaves that table as it is, whether the first run found
    the user or created it, and whatever else the table holds. *)
Theorem verify_idempotent (c : conditions) (d : database) (p : Profile) :
  select_status c = Up →
  insert_status c = Up →
  Server.verify c (fst (Server.verify c d p)) p
  = (fst (Server.verify c d p), snd (Server.verify c d p))
  ∧ ∃ row, snd (Server.verify c d p) = Called None (VObj [("id", VNum (id row))])
           ∧ row ∈ users (fst (Server.verify c d p))
           ∧ github_id row = profile_id p.
Proof.
  intros Hs Hi.
  destruct (verify_outcome c d p Hs (λ _, Hi))
    as (d' & row & Hv & Hrow & Hgid & Hcase).
  rewrite Hv. simpl. split.
  - destruct Hcase as [(Hm & -> & ->) | (rest & Hm & ->)].
    + apply (verify_found c _ p (created_row d p) []); [done|].
      unfold Knex.with_github_id, with_created_row in *. cbn [users].
      rewrite filter_app, Hm. simpl. by rewrite filter_cons_True.
    + by apply (verify_found c d p row rest).
  - by exists row.
Qed.

Lemma verify_idempotent_witness :
  select_status all_up = Up
  ∧ Server.verify all_up (fst (Server.verify all_up sample_db monalisa)) monalisa
    = (fst (Server.verify all_up sample_db monalisa),
       snd (Server.verify all_up sample_db monalisa)).
Proof.
  split; [reflexivity|].
  apply (verify_idempotent all_up sample_db monalisa); reflexivity.
Defined.

(** X13. Starting a login changes nothing on the server: a request to
    GET /auth/github without a provider reply, once past the session
    middleware, is answered with a 302 redirect to the provider's
    authorization URL; the table and every session are as before, so a
    user who is logged in stays logged in. *)
Theorem login_start_redirects_to_provider
    (CLIENT_URL AUTHORIZE_URL : string) (w : world) (r : request)
    (s : object) (u : value) :
  target r = GithubRoute →
  query r = NoCode →
  Passport.session (storage r) (db w) (session_of w (cookie r)) = Next s u →
  snd (handle CLIENT_URL AUTHORIZE_URL w r) = Redirect 302 AUTHORIZE_URL
  ∧ db (fst (handle CLIENT_URL AUTHORIZE_URL w r)) = db w
  ∧ ∀ sid, session_of (fst (handle CLIENT_URL AUTHORIZE_URL w r)) sid
           = session_of w sid.
Proof.
  intros Ht Hq Hs.
  destruct (session_next _ _ _ _ _ Hs) as [-> _].
  unfold handle, dispatch, get_github. rewrite Hs, Ht, Hq. simpl.
  split_and!; [done..|]. intros sid. apply session_of_write_back.
Qed.

Lemma login_start_redirects_to_provider_witness :
  Passport.session all_up sample_db (session_of sample_world "s9")
  = Next [] VUndefined
  ∧ snd (handle client_url authorize_url sample_world login_start)
    = Redirect 302 authorize_url.
Proof.
  split; [reflexivity|].
  apply (login_start_redirects_to_provider client_url authorize_url sample_world
           login_start [] VUndefined); reflexivity.
Defined.
